(** * aws-lambda-venafi: the request handler of [request/main.go]

    A shallow embedding of the Lambda handler [ACMPCAHandler] and of the two
    policy-gated flows it dispatches to, followed by the properties of the
    dispatch / decode / resolve / validate / invoke pipeline.

    The handler is straight-line Go code that calls out to libraries
    (encoding/json, encoding/base64, vcert, the policy store, the AWS SDK)
    and returns early on every error.  The embedding keeps that shape:

    - every Go function of the file is a computation in the monad [Go], which
      threads a chronological log of the library calls made so far together
      with what each call answered, and which stops at the first [return]
      statement or run-time panic;
    - the libraries are not part of the repository; what they answer is given
      by an instance of the class [Collaborators], so every theorem holds for
      every behaviour of the libraries;
    - Go strings are byte strings ([string]), [[]byte] is [list byte], a
      pointer that may be nil is an [option], a [(T, error)] result whose
      value is dead on error is a [Result T], and [int] status codes are [Z]. *)

From Stdlib Require Import ZArith String Ascii List Bool Lia.
From Stdlib.Strings Require Import Byte.
From stdpp Require Import base strings gmap list.
Import ListNotations.
Open Scope string_scope.
Open Scope list_scope.
Open Scope Z_scope.

(** ** Go basics *)

(** A Go [error] value is observed by the handler only through its
    [Error()] text (that is what the [%s] verb and [err.Error()] give). *)
Definition error := string.

Inductive Result (A : Type) : Type :=
| Ok (a : A)
| Err (err : error).
Arguments Ok {A} a.
Arguments Err {A} err.

(** The double quote, written by its code because it cannot stand
    unescaped inside a literal. *)
Definition dquote : ascii := "034"%char.
Definition backslash : ascii := "092"%char.

(** [fmt.Sprintf] restricted to what this file uses: format strings whose
    only verb is [%s], applied to strings (an [error] operand prints its
    [Error()] text).  A verb with no operand left prints as Go does; every
    call in the file has as many operands as its format has verbs, so what
    Go appends for operands left over is not modelled. *)
Fixpoint Sprintf (format : string) (a : list string) : string :=
  match format with
  | String "%" (String "s" rest) =>
      match a with
      | x :: a' => x +:+ Sprintf rest a'
      | [] => "%!s(MISSING)" +:+ Sprintf rest []
      end
  | String c rest => String c (Sprintf rest a)
  | EmptyString => EmptyString
  end.

(** ** net/http status codes used by the handler *)
Module http.
Definition StatusOK : Z := 200.
Definition StatusForbidden : Z := 403.
Definition StatusMethodNotAllowed : Z := 405.
Definition StatusUnprocessableEntity : Z := 422.
Definition StatusFailedDependency : Z := 424.
Definition StatusInternalServerError : Z := 500.
End http.

(** ** aws-lambda-go/events: the two envelope types, with the fields the
    handler reads or writes (every other field keeps its zero value). *)
Module events.
Module APIGatewayProxyRequest.
Record t : Type := {
  Headers : gmap string string;
  Body : string
}.
End APIGatewayProxyRequest.

Module APIGatewayProxyResponse.
Record t : Type := {
  StatusCode : Z;
  Body : string
}.
End APIGatewayProxyResponse.
End events.

Module context.
Inductive Context : Type := TODO.
End context.

(** ** crypto/x509/pkix and vcert's certificate.Request *)
Module pkix.
Record Name : Type := { CommonName : string }.
Definition zero : Name := {| CommonName := "" |}.
End pkix.

Module certificate.
Inductive CSrOriginOption : Type :=
| LocalGeneratedCSR
| ServiceGeneratedCSR
| UserProvidedCSR.

Record Request : Type := {
  Subject : pkix.Name;
  DNSNames : list string;
  CsrOrigin : CSrOriginOption;
  csr : list byte
}.

(** [var req certificate.Request] *)
Definition zero : Request :=
  {| Subject := pkix.zero; DNSNames := []; CsrOrigin := LocalGeneratedCSR;
     csr := [] |}.
End certificate.

(** ** The SDK types the handler embeds and passes on

    The request and response structs of the AWS SDK and vcert's policy are
    declared outside the repository.  The handler reads three fields of them
    and otherwise hands the values over untouched, so they are kept
    abstract with one accessor per field read. *)
Class SDK : Type := {
  aws_Config : Type;
  endpoint_Policy : Type;
  acmpca_IssueCertificateInput : Type;
  acmpca_Csr : acmpca_IssueCertificateInput -> list byte;
  acmpca_IssueCertificateResponse : Type;
  acm_RequestCertificateInput : Type;
  acm_DomainName : acm_RequestCertificateInput -> option string;
  acm_SubjectAlternativeNames : acm_RequestCertificateInput -> list string;
  acm_RequestCertificateResponse : Type
}.

(** ** The request structs of package main *)

(** [type ACMPCAIssueCertificateRequest struct { acmpca.IssueCertificateInput;
    VenafiZone string }] *)
Module ACMPCAIssueCertificateRequest.
Record t `{SDK} : Type := {
  IssueCertificateInput : acmpca_IssueCertificateInput;
  VenafiZone : string
}.
Definition set_VenafiZone `{SDK} (z : string) (r : t) : t :=
  {| IssueCertificateInput := IssueCertificateInput r; VenafiZone := z |}.
(** The promoted field [certRequest.Csr]. *)
Definition Csr `{SDK} (r : t) : list byte := acmpca_Csr (IssueCertificateInput r).
End ACMPCAIssueCertificateRequest.

(** [type VenafiRequestCertificateInput struct { acm.RequestCertificateInput;
    VenafiZone string }] *)
Module VenafiRequestCertificateInput.
Record t `{SDK} : Type := {
  RequestCertificateInput : acm_RequestCertificateInput;
  VenafiZone : string
}.
Definition set_VenafiZone `{SDK} (z : string) (r : t) : t :=
  {| RequestCertificateInput := RequestCertificateInput r; VenafiZone := z |}.
(** The promoted fields [certRequest.DomainName] and
    [certRequest.SubjectAlternativeNames]. *)
Definition DomainName `{SDK} (r : t) : option string :=
  acm_DomainName (RequestCertificateInput r).
Definition SubjectAlternativeNames `{SDK} (r : t) : list string :=
  acm_SubjectAlternativeNames (RequestCertificateInput r).
End VenafiRequestCertificateInput.

(** ** The library calls and the call log *)

(** What the libraries answer.  [json.Unmarshal] and [json.Marshal] appear
    once per Go type they are used at.  [external.LoadDefaultAWSConfig]
    answers a configuration together with its error, because one caller goes
    on with the configuration after an error. *)
Class Collaborators `{SDK} : Type := {
  Unmarshal_IssueCertificate :
    list byte -> Result ACMPCAIssueCertificateRequest.t;
  Unmarshal_RequestCertificate :
    list byte -> Result VenafiRequestCertificateInput.t;
  DecodeString : string -> Result (list byte);
  SetCSR : certificate.Request -> list byte -> Result certificate.Request;
  GetPolicy : string -> Result endpoint_Policy;
  ValidateCertificateRequest :
    endpoint_Policy -> certificate.Request -> option error;
  LoadDefaultAWSConfig : aws_Config * option error;
  IssueCertificate_Send :
    aws_Config -> acmpca_IssueCertificateInput ->
    Result acmpca_IssueCertificateResponse;
  RequestCertificate_Send :
    aws_Config -> acm_RequestCertificateInput ->
    Result acm_RequestCertificateResponse;
  Marshal_IssueCertificate :
    acmpca_IssueCertificateResponse -> Result (list byte);
  Marshal_RequestCertificate :
    acm_RequestCertificateResponse -> Result (list byte)
}.

(** One entry of the call log: which library function was called, on what,
    and what it answered. *)
Inductive Event `{SDK} : Type :=
| EvUnmarshalIssueCertificate
    (data : list byte) (res : Result ACMPCAIssueCertificateRequest.t)
| EvUnmarshalRequestCertificate
    (data : list byte) (res : Result VenafiRequestCertificateInput.t)
| EvBase64Decode (s : string) (res : Result (list byte))
| EvSetCSR (req : certificate.Request) (csr : list byte)
    (res : Result certificate.Request)
| EvGetPolicy (zone : string) (res : Result endpoint_Policy)
| EvValidate (policy : endpoint_Policy) (req : certificate.Request)
    (res : option error)
| EvLoadConfig (res : aws_Config * option error)
| EvPrintln (operands : list string)
| EvIssueCertificateSend (cfg : aws_Config)
    (input : acmpca_IssueCertificateInput)
    (res : Result acmpca_IssueCertificateResponse)
| EvRequestCertificateSend (cfg : aws_Config)
    (input : acm_RequestCertificateInput)
    (res : Result acm_RequestCertificateResponse)
| EvMarshalIssueCertificate (v : acmpca_IssueCertificateResponse)
    (res : Result (list byte))
| EvMarshalRequestCertificate (v : acm_RequestCertificateResponse)
    (res : Result (list byte)).

(** ** The monad of a Go function body *)

(** Where a run of statements stands: it goes on with a value, or the
    function has executed [return], or the goroutine has panicked. *)
Inductive Step (A : Type) : Type :=
| Continue (a : A)
| Return (r : events.APIGatewayProxyResponse.t * option error)
| Panic.
Arguments Continue {A} a.
Arguments Return {A} r.
Arguments Panic {A}.

Definition Go `{SDK} (A : Type) : Type := (Step A * list Event)%type.

(** A whole function body: control never falls off its end. *)
Definition Func `{SDK} : Type := Go Empty_set.

Definition ret `{SDK} {A : Type} (a : A) : Go A := (Continue a, []).

Definition bind `{SDK} {A B : Type} (m : Go A) (k : A -> Go B) : Go B :=
  match m with
  | (Continue a, l) => let '(s, l') := k a in (s, l ++ l')
  | (Return r, l) => (Return r, l)
  | (Panic, l) => (Panic, l)
  end.

Notation "x <- c ;; k" := (bind c (fun x => k))
  (at level 100, c at next level, right associativity).

(** [return r] *)
Definition return_ `{SDK} {A : Type}
  (r : events.APIGatewayProxyResponse.t * option error) : Go A :=
  (Return r, []).

(** A library call: the answer is logged and handed to the caller. *)
Definition call `{SDK} {A : Type} (ev : A -> Event) (answer : A) : Go A :=
  (Continue answer, [ev answer]).

(** [v, err := f(...); if err != nil { return h(err) }] *)
Definition check `{SDK} {A : Type} (m : Go (Result A))
  (h : error -> events.APIGatewayProxyResponse.t * option error) : Go A :=
  r <- m ;;
  match r with
  | Ok a => ret a
  | Err err => return_ (h err)
  end.

(** [err = f(...); if err != nil { return h(err) }] *)
Definition check_nil `{SDK} (m : Go (option error))
  (h : error -> events.APIGatewayProxyResponse.t * option error) : Go unit :=
  r <- m ;;
  match r with
  | None => ret tt
  | Some err => return_ (h err)
  end.

(** [v, err := f(...); if err != nil { return h(err) }] for an [f] whose
    value is not dead on error. *)
Definition check_pair `{SDK} {A : Type} (m : Go (A * option error))
  (h : error -> events.APIGatewayProxyResponse.t * option error) : Go A :=
  r <- m ;;
  match snd r with
  | None => ret (fst r)
  | Some err => return_ (h err)
  end.

(** [*p]: dereferencing nil panics. *)
Definition deref `{SDK} {A : Type} (p : option A) : Go A :=
  match p with
  | Some a => ret a
  | None => (Panic, [])
  end.

(** The log and the result of a function call. *)
Definition log_of `{SDK} {A : Type} (m : Go A) : list Event := snd m.
Definition result_of `{SDK} {A : Type} (m : Go A) : Step A := fst m.

(** ** Package main *)

Definition acmRequestCertificate : string := "CertificateManager.RequestCertificate".
Definition acmpcaIssueCertificate : string := "ACMPrivateCA.IssueCertificate".

(** The declarations of package main that [request/main.go] uses and another
    file of the package declares: the two pass-through operation
    identifiers, the text [fmt.Sprintf(errUnmarshalJson, target, err)]
    produces for the format constant [errUnmarshalJson], and the function
    [passThru]. *)
Class PackageMain `{SDK} : Type := {
  acmpcaListCertificateAuthorities : string;
  acmpcaGetCertificate : string;
  Sprintf_errUnmarshalJson : string -> error -> string;
  passThru : events.APIGatewayProxyRequest.t -> context.Context -> string -> Func
}.

(** [func clientError(status int, body string)]: the format is
    [{ "msg" : "%s" }] and the returned error is always nil. *)
Definition clientError (status : Z) (body : string)
  : events.APIGatewayProxyResponse.t * option error :=
  ({| events.APIGatewayProxyResponse.StatusCode := status;
      events.APIGatewayProxyResponse.Body :=
        Sprintf ("{ " +:+ String dquote "msg" +:+ String dquote " : "
                 +:+ String dquote "%s" +:+ String dquote " }") [body] |},
   None).

Section Handlers.
Context `{sdk : SDK} `{lib : !Collaborators} `{pkg : !PackageMain}.

(** The library calls, as the handler makes them. *)
Definition json_Unmarshal_IssueCertificate (data : list byte)
  : Go (Result ACMPCAIssueCertificateRequest.t) :=
  call (EvUnmarshalIssueCertificate data) (Unmarshal_IssueCertificate data).
Definition json_Unmarshal_RequestCertificate (data : list byte)
  : Go (Result VenafiRequestCertificateInput.t) :=
  call (EvUnmarshalRequestCertificate data) (Unmarshal_RequestCertificate data).
Definition base64_StdEncoding_DecodeString (s : string) : Go (Result (list byte)) :=
  call (EvBase64Decode s) (DecodeString s).
Definition req_SetCSR (req : certificate.Request) (csr : list byte)
  : Go (Result certificate.Request) :=
  call (EvSetCSR req csr) (SetCSR req csr).
Definition common_GetPolicy (zone : string) : Go (Result endpoint_Policy) :=
  call (EvGetPolicy zone) (GetPolicy zone).
Definition policy_ValidateCertificateRequest
  (policy : endpoint_Policy) (req : certificate.Request) : Go (option error) :=
  call (EvValidate policy req) (ValidateCertificateRequest policy req).
Definition external_LoadDefaultAWSConfig : Go (aws_Config * option error) :=
  call EvLoadConfig LoadDefaultAWSConfig.
Definition fmt_Println (operands : list string) : Go unit :=
  call (fun _ => EvPrintln operands) tt.
Definition acmpca_Send (cfg : aws_Config) (input : acmpca_IssueCertificateInput)
  : Go (Result acmpca_IssueCertificateResponse) :=
  call (EvIssueCertificateSend cfg input) (IssueCertificate_Send cfg input).
Definition acm_Send (cfg : aws_Config) (input : acm_RequestCertificateInput)
  : Go (Result acm_RequestCertificateResponse) :=
  call (EvRequestCertificateSend cfg input) (RequestCertificate_Send cfg input).
Definition json_Marshal_IssueCertificate (v : acmpca_IssueCertificateResponse)
  : Go (Result (list byte)) :=
  call (EvMarshalIssueCertificate v) (Marshal_IssueCertificate v).
Definition json_Marshal_RequestCertificate (v : acm_RequestCertificateResponse)
  : Go (Result (list byte)) :=
  call (EvMarshalRequestCertificate v) (Marshal_RequestCertificate v).

Definition venafiACMPCAIssueCertificateRequest
  (request : events.APIGatewayProxyRequest.t) : Func :=
  let ctx := context.TODO in
  certRequest <-
    check (json_Unmarshal_IssueCertificate
             (list_byte_of_string (events.APIGatewayProxyRequest.Body request)))
          (fun err => clientError http.StatusUnprocessableEntity
                        (Sprintf_errUnmarshalJson acmpcaIssueCertificate err)) ;;
  csr <-
    check (base64_StdEncoding_DecodeString
             (string_of_list_byte (ACMPCAIssueCertificateRequest.Csr certRequest)))
          (fun _ => clientError http.StatusUnprocessableEntity
                      "Can`t decode csr from base64") ;;
  req <-
    check (req_SetCSR certificate.zero csr)
          (fun _ => clientError http.StatusUnprocessableEntity
                      "Can't parse certificate request") ;;
  let certRequest :=
    if (ACMPCAIssueCertificateRequest.VenafiZone certRequest =? "")%string
    then ACMPCAIssueCertificateRequest.set_VenafiZone "Default" certRequest
    else certRequest in
  policy <-
    check (common_GetPolicy (ACMPCAIssueCertificateRequest.VenafiZone certRequest))
          (fun err => clientError http.StatusFailedDependency
                        (Sprintf "Failed get policy from database: %s" [err])) ;;
  _ <-
    check_nil (policy_ValidateCertificateRequest policy req)
              (fun err => clientError http.StatusForbidden err) ;;
  awsCfg <-
    check_pair external_LoadDefaultAWSConfig
               (fun err => clientError http.StatusInternalServerError
                             (Sprintf "Error loading client: %s" [err])) ;;
  csrResp <-
    check (acmpca_Send awsCfg
             (ACMPCAIssueCertificateRequest.IssueCertificateInput certRequest))
          (fun err => clientError http.StatusInternalServerError
                        (Sprintf "could not get certificate response: %s" [err])) ;;
  respoBodyJSON <-
    check (json_Marshal_IssueCertificate csrResp)
          (fun err => clientError http.StatusUnprocessableEntity
                        (Sprintf "Error marshaling response JSON for target %s: %s"
                                 [acmpcaIssueCertificate; err])) ;;
  return_ ({| events.APIGatewayProxyResponse.Body := string_of_list_byte respoBodyJSON;
              events.APIGatewayProxyResponse.StatusCode := http.StatusOK |},
           None).

(** [acmCli := acm.New(awsCfg)] followed by
    [acmCli.RequestCertificateRequest(&certRequest.RequestCertificateInput)].
    Building the request resolves the endpoint of the service through the
    resolver of the configuration.  The configuration that
    [external.LoadDefaultAWSConfig] hands back together with an error is the
    zero [aws.Config], whose resolver is nil: on it the call panics.  (The
    private-CA handler builds its client and request only on a configuration
    that came without an error.) *)
Definition acm_New_RequestCertificateRequest
  (loaded : aws_Config * option error) : Go unit :=
  match snd loaded with
  | Some _ => (Panic, [])
  | None => ret tt
  end.

Definition venafiACMRequestCertificate
  (request : events.APIGatewayProxyRequest.t) : Func :=
  let ctx := context.TODO in
  certRequest <-
    check (json_Unmarshal_RequestCertificate
             (list_byte_of_string (events.APIGatewayProxyRequest.Body request)))
          (fun err => clientError http.StatusUnprocessableEntity
                        (Sprintf "Error unmarshaling JSON: %s" [err])) ;;
  let req := certificate.zero in
  DomainName <- deref (VenafiRequestCertificateInput.DomainName certRequest) ;;
  let req :=
    {| certificate.Subject := {| pkix.CommonName := DomainName |};
       certificate.DNSNames := certificate.DNSNames req;
       certificate.CsrOrigin := certificate.CsrOrigin req;
       certificate.csr := certificate.csr req |} in
  let req :=
    {| certificate.Subject := certificate.Subject req;
       certificate.DNSNames :=
         VenafiRequestCertificateInput.SubjectAlternativeNames certRequest;
       certificate.CsrOrigin := certificate.CsrOrigin req;
       certificate.csr := certificate.csr req |} in
  let req :=
    {| certificate.Subject := certificate.Subject req;
       certificate.DNSNames := certificate.DNSNames req;
       certificate.CsrOrigin := certificate.ServiceGeneratedCSR;
       certificate.csr := certificate.csr req |} in
  let certRequest :=
    if (VenafiRequestCertificateInput.VenafiZone certRequest =? "")%string
    then VenafiRequestCertificateInput.set_VenafiZone "Default" certRequest
    else certRequest in
  policy <-
    check (common_GetPolicy (VenafiRequestCertificateInput.VenafiZone certRequest))
          (fun err => clientError http.StatusFailedDependency
                        (Sprintf "Failed get policy from database: %s" [err])) ;;
  _ <-
    check_nil (policy_ValidateCertificateRequest policy req)
              (fun err => clientError http.StatusForbidden err) ;;
  loaded <- external_LoadDefaultAWSConfig ;;
  let awsCfg := fst loaded in
  _ <-
    match snd loaded with
    | Some err => fmt_Println ["Error loading client"; err]
    | None => ret tt
    end ;;
  _ <- acm_New_RequestCertificateRequest loaded ;;
  certResp <-
    check (acm_Send awsCfg
             (VenafiRequestCertificateInput.RequestCertificateInput certRequest))
          (fun err => clientError http.StatusInternalServerError
                        (Sprintf "could not get certificate response: %s" [err])) ;;
  respoBodyJSON <-
    check (json_Marshal_RequestCertificate certResp)
          (fun err => clientError http.StatusUnprocessableEntity
                        (Sprintf "Error marshaling response JSON: %s" [err])) ;;
  return_ ({| events.APIGatewayProxyResponse.Body := string_of_list_byte respoBodyJSON;
              events.APIGatewayProxyResponse.StatusCode := http.StatusOK |},
           None).

(** [request.Headers["X-Amz-Target"]]: a key that is absent reads as the
    empty string. *)
Definition header (request : events.APIGatewayProxyRequest.t) (key : string) : string :=
  default "" (events.APIGatewayProxyRequest.Headers request !! key).

(** The [switch] tries its cases from the top and takes the first equal one. *)
Definition ACMPCAHandler (request : events.APIGatewayProxyRequest.t) : Func :=
  let ctx := context.TODO in
  let target := header request "X-Amz-Target" in
  if (target =? acmpcaIssueCertificate)%string then
    venafiACMPCAIssueCertificateRequest request
  else if (target =? acmRequestCertificate)%string then
    venafiACMRequestCertificate request
  else if (target =? acmpcaListCertificateAuthorities)%string then
    passThru request ctx acmpcaListCertificateAuthorities
  else if (target =? acmpcaGetCertificate)%string then
    passThru request ctx acmpcaGetCertificate
  else
    return_ (clientError http.StatusMethodNotAllowed "Can't determine requested method").

End Handlers.

(** ** Vocabulary of the properties *)

Section Vocabulary.
Context `{sdk : SDK} `{lib : !Collaborators} `{pkg : !PackageMain}.

(** The two policy-gated operations and the function that serves each. *)
Inductive GatedOperation : Type :=
| IssueCertificate
| RequestCertificate.

Definition gated_handler (op : GatedOperation)
  : events.APIGatewayProxyRequest.t -> Func :=
  match op with
  | IssueCertificate => venafiACMPCAIssueCertificateRequest
  | RequestCertificate => venafiACMRequestCertificate
  end.

Definition gated_target (op : GatedOperation) : string :=
  match op with
  | IssueCertificate => acmpcaIssueCertificate
  | RequestCertificate => acmRequestCertificate
  end.

(** The fixed registry of operation identifiers of the dispatcher. *)
Definition registry : list string :=
  [acmpcaIssueCertificate; acmRequestCertificate;
   acmpcaListCertificateAuthorities; acmpcaGetCertificate].

(** Classification of the entries of the call log. *)
Definition is_backend_call (e : Event) : bool :=
  match e with
  | EvIssueCertificateSend _ _ _ | EvRequestCertificateSend _ _ _ => true
  | _ => false
  end.

Definition is_policy_call (e : Event) : bool :=
  match e with
  | EvGetPolicy _ _ | EvValidate _ _ _ => true
  | _ => false
  end.

Definition is_resolution (e : Event) : bool :=
  match e with
  | EvGetPolicy _ _ => true
  | _ => false
  end.

(** A step of the gate that answered with an error: a decoding step, the
    policy resolution or the policy validation. *)
Definition is_gate_failure (e : Event) : bool :=
  match e with
  | EvUnmarshalIssueCertificate _ (Err _)
  | EvUnmarshalRequestCertificate _ (Err _)
  | EvBase64Decode _ (Err _)
  | EvSetCSR _ _ (Err _)
  | EvGetPolicy _ (Err _)
  | EvValidate _ _ (Some _) => true
  | _ => false
  end.

Definition backend_calls (log : list Event) : list Event :=
  List.filter is_backend_call log.


(** The canonical request the managed-certificate flow builds from the
    explicit subject and SAN fields of its payload. *)
Definition canonical_of_names (DomainName : string) (sans : list string)
  : certificate.Request :=
  {| certificate.Subject := {| pkix.CommonName := DomainName |};
     certificate.DNSNames := sans;
     certificate.CsrOrigin := certificate.ServiceGeneratedCSR;
     certificate.csr := [] |}.

(** [decode_succeeded dec req]: the log segment [dec] is a complete,
    successful decoding of the payload of a gated operation into the
    canonical request [req]. *)
Inductive decode_succeeded : list Event -> certificate.Request -> Prop :=
| decoded_IssueCertificate data certRequest csr req :
    decode_succeeded
      [EvUnmarshalIssueCertificate data (Ok certRequest);
       EvBase64Decode
         (string_of_list_byte (ACMPCAIssueCertificateRequest.Csr certRequest))
         (Ok csr);
       EvSetCSR certificate.zero csr (Ok req)]
      req
| decoded_RequestCertificate data certRequest DomainName :
    VenafiRequestCertificateInput.DomainName certRequest = Some DomainName ->
    decode_succeeded
      [EvUnmarshalRequestCertificate data (Ok certRequest)]
      (canonical_of_names DomainName
         (VenafiRequestCertificateInput.SubjectAlternativeNames certRequest)).

(** [gates_passed pre]: the log [pre] starts with a successful decoding,
    followed at once by a successful resolution of a policy and by a
    validation of the decoded request against that very policy which
    answered nil. *)
Definition gates_passed (pre : list Event) : Prop :=
  exists dec req zone policy rest,
    decode_succeeded dec req /\
    pre = dec ++ EvGetPolicy zone (Ok policy) :: EvValidate policy req None :: rest.

(** The decoder of the private-CA operation as the specification words it:
    a function of the payload alone that either fails with one of three
    kinds or yields the decoded payload and the canonical request. *)
Inductive DecodeFailure : Type :=
| MalformedPayload (err : error)
| InvalidEncoding (err : error)
| InvalidSigningRequest (err : error).

Definition decode_IssueCertificate (body : string)
  : DecodeFailure + ACMPCAIssueCertificateRequest.t * certificate.Request :=
  match Unmarshal_IssueCertificate (list_byte_of_string body) with
  | Err err => inl (MalformedPayload err)
  | Ok certRequest =>
      match DecodeString
              (string_of_list_byte (ACMPCAIssueCertificateRequest.Csr certRequest)) with
      | Err err => inl (InvalidEncoding err)
      | Ok csr =>
          match SetCSR certificate.zero csr with
          | Err err => inl (InvalidSigningRequest err)
          | Ok req => inr (certRequest, req)
          end
      end
  end.

(** The message the handler answers for each kind of decoding failure. *)
Definition decode_failure_message (f : DecodeFailure) : string :=
  match f with
  | MalformedPayload err => Sprintf_errUnmarshalJson acmpcaIssueCertificate err
  | InvalidEncoding _ => "Can`t decode csr from base64"
  | InvalidSigningRequest _ => "Can't parse certificate request"
  end.

(** [invoked_with_original op request log]: the log has exactly one backend
    call, made on the SDK struct embedded in the payload exactly as
    [json.Unmarshal] produced it from the inbound body. *)
Definition invoked_with_original (op : GatedOperation)
  (request : events.APIGatewayProxyRequest.t) (log : list Event) : Prop :=
  match op with
  | IssueCertificate =>
      exists certRequest cfg,
        Unmarshal_IssueCertificate
          (list_byte_of_string (events.APIGatewayProxyRequest.Body request)) =
          Ok certRequest /\
        backend_calls log =
          [EvIssueCertificateSend cfg
             (ACMPCAIssueCertificateRequest.IssueCertificateInput certRequest)
             (IssueCertificate_Send cfg
                (ACMPCAIssueCertificateRequest.IssueCertificateInput certRequest))]
  | RequestCertificate =>
      exists certRequest cfg,
        Unmarshal_RequestCertificate
          (list_byte_of_string (events.APIGatewayProxyRequest.Body request)) =
          Ok certRequest /\
        backend_calls log =
          [EvRequestCertificateSend cfg
             (VenafiRequestCertificateInput.RequestCertificateInput certRequest)
             (RequestCertificate_Send cfg
                (VenafiRequestCertificateInput.RequestCertificateInput certRequest))]
  end.

(** The response that carries the serialized backend answer. *)
Definition relayed (serialized : list byte)
  : events.APIGatewayProxyResponse.t * option error :=
  ({| events.APIGatewayProxyResponse.StatusCode := http.StatusOK;
      events.APIGatewayProxyResponse.Body := string_of_list_byte serialized |},
   None).

(** [relays_backend_answer run]: whenever a backend call of the run
    succeeded and its answer serializes, the run returned that
    serialization with status 200. *)
Definition relays_backend_answer (run : Func) : Prop :=
  forall e, In e (backend_calls (log_of run)) ->
    match e with
    | EvIssueCertificateSend _ _ (Ok csrResp) =>
        forall serialized,
          Marshal_IssueCertificate csrResp = Ok serialized ->
          result_of run = Return (relayed serialized)
    | EvRequestCertificateSend _ _ (Ok certResp) =>
        forall serialized,
          Marshal_RequestCertificate certResp = Ok serialized ->
          result_of run = Return (relayed serialized)
    | _ => True
    end.

(** The VenafiZone member of a payload that decodes; it is empty when the
    payload has no such member or has it empty, because [json.Unmarshal]
    leaves the zero value of a string field it does not fill. *)
Definition payload_zone (op : GatedOperation)
  (request : events.APIGatewayProxyRequest.t) : option string :=
  match op with
  | IssueCertificate =>
      match decode_IssueCertificate (events.APIGatewayProxyRequest.Body request) with
      | inr (certRequest, _) =>
          Some (ACMPCAIssueCertificateRequest.VenafiZone certRequest)
      | inl _ => None
      end
  | RequestCertificate =>
      match Unmarshal_RequestCertificate
              (list_byte_of_string (events.APIGatewayProxyRequest.Body request)) with
      | Ok certRequest =>
          match VenafiRequestCertificateInput.DomainName certRequest with
          | Some _ => Some (VenafiRequestCertificateInput.VenafiZone certRequest)
          | None => None
          end
      | Err _ => None
      end
  end.

(** Further classifications of the entries of the call log. *)
Definition is_validation (e : Event) : bool :=
  match e with
  | EvValidate _ _ _ => true
  | _ => false
  end.

Definition is_config_load (e : Event) : bool :=
  match e with
  | EvLoadConfig _ => true
  | _ => false
  end.

(** The error of a backend call that failed. *)
Definition backend_error (e : Event) : option error :=
  match e with
  | EvIssueCertificateSend _ _ (Err err)
  | EvRequestCertificateSend _ _ (Err err) => Some err
  | _ => None
  end.

(** The error of a serialization of a backend answer that failed. *)
Definition marshal_error (e : Event) : option error :=
  match e with
  | EvMarshalIssueCertificate _ (Err err)
  | EvMarshalRequestCertificate _ (Err err) => Some err
  | _ => None
  end.

(** A library call that answered with an error and on whose error the
    handler returns: every failing call but the loading of the client
    configuration, which the two handlers treat differently. *)
Definition is_failed_call (e : Event) : bool :=
  is_gate_failure e ||
  match backend_error e, marshal_error e with
  | None, None => false
  | _, _ => true
  end.

(** The log up to the first entry that satisfies [p]. *)
Fixpoint before_first (p : Event -> bool) (l : list Event) : list Event :=
  match l with
  | [] => []
  | e :: l' => if p e then [] else e :: before_first p l'
  end.

(** The status and the Go error of a result, when the function returned. *)
Definition status_of (s : Step Empty_set) : option Z :=
  match s with
  | Return (resp, _) => Some (events.APIGatewayProxyResponse.StatusCode resp)
  | _ => None
  end.

(** The message each handler answers when the backend answer does not
    serialize. *)
Definition marshal_failure_message (op : GatedOperation) (err : error) : string :=
  match op with
  | IssueCertificate =>
      Sprintf "Error marshaling response JSON for target %s: %s"
              [acmpcaIssueCertificate; err]
  | RequestCertificate => Sprintf "Error marshaling response JSON: %s" [err]
  end.

(** [answered_by_backend op log serialized]: the only backend call of the
    log succeeded and [serialized] is the serialization of its answer. *)
Definition answered_by_backend (op : GatedOperation) (log : list Event)
  (serialized : list byte) : Prop :=
  match op with
  | IssueCertificate =>
      exists cfg input csrResp,
        backend_calls log = [EvIssueCertificateSend cfg input (Ok csrResp)] /\
        Marshal_IssueCertificate csrResp = Ok serialized
  | RequestCertificate =>
      exists cfg input certResp,
        backend_calls log = [EvRequestCertificateSend cfg input (Ok certResp)] /\
        Marshal_RequestCertificate certResp = Ok serialized
  end.

(** The status each handler gives to a failure of a library call; a
    failure of the loading of the client configuration is answered with a
    response in the private-CA operation only. *)
Definition failure_status (op : GatedOperation) (e : Event) : option Z :=
  match e with
  | EvUnmarshalIssueCertificate _ (Err _)
  | EvUnmarshalRequestCertificate _ (Err _)
  | EvBase64Decode _ (Err _)
  | EvSetCSR _ _ (Err _) => Some http.StatusUnprocessableEntity
  | EvGetPolicy _ (Err _) => Some http.StatusFailedDependency
  | EvValidate _ _ (Some _) => Some http.StatusForbidden
  | EvLoadConfig (_, Some _) =>
      match op with
      | IssueCertificate => Some http.StatusInternalServerError
      | RequestCertificate => None
      end
  | EvIssueCertificateSend _ _ (Err _)
  | EvRequestCertificateSend _ _ (Err _) => Some http.StatusInternalServerError
  | EvMarshalIssueCertificate _ (Err _)
  | EvMarshalRequestCertificate _ (Err _) => Some http.StatusUnprocessableEntity
  | _ => None
  end.

(** The zone a gated request is judged in, as the specification has it:
    the VenafiZone member of the payload, and Default when it is empty. *)
Definition zone_or_default (VenafiZone : string) : string :=
  if (VenafiZone =? "")%string then "Default" else VenafiZone.

(** The canonical request of a gated request, as the specification has
    it: the zone and the certificate request that the payload decodes to,
    read off the answers of the decoding libraries alone; none when the
    payload does not decode. *)
Definition canonical_request (op : GatedOperation)
  (request : events.APIGatewayProxyRequest.t)
  : option (string * certificate.Request) :=
  match op with
  | IssueCertificate =>
      match decode_IssueCertificate (events.APIGatewayProxyRequest.Body request) with
      | inr (certRequest, req) =>
          Some (zone_or_default (ACMPCAIssueCertificateRequest.VenafiZone certRequest),
                req)
      | inl _ => None
      end
  | RequestCertificate =>
      match Unmarshal_RequestCertificate
              (list_byte_of_string (events.APIGatewayProxyRequest.Body request)) with
      | Ok certRequest =>
          match VenafiRequestCertificateInput.DomainName certRequest with
          | Some DomainName =>
              Some (zone_or_default
                      (VenafiRequestCertificateInput.VenafiZone certRequest),
                    canonical_of_names DomainName
                      (VenafiRequestCertificateInput.SubjectAlternativeNames
                         certRequest))
          | None => None
          end
      | Err _ => None
      end
  end.

End Vocabulary.

(** ** Well-formed error envelopes (RFC 8259)

    What a JSON reader makes of a response body that is expected to be an
    object with the single member [msg] holding a string: the decoded
    string, or nothing when the body is not such a document. *)
Module rfc8259.

Definition is_ws (c : ascii) : bool :=
  let n := N_of_ascii c in
  ((n =? 32) || (n =? 9) || (n =? 10) || (n =? 13))%N.

Fixpoint skip_ws (s : string) : string :=
  match s with
  | String c rest => if is_ws c then skip_ws rest else s
  | EmptyString => EmptyString
  end.

(** The next significant character must be [c]. *)
Definition expect (c : ascii) (s : string) : option string :=
  match skip_ws s with
  | String c' rest => if Ascii.eqb c c' then Some rest else None
  | EmptyString => None
  end.

Definition hex_digit (c : ascii) : option N :=
  let n := N_of_ascii c in
  (if (48 <=? n) && (n <=? 57) then Some (n - 48)
   else if (65 <=? n) && (n <=? 70) then Some (n - 55)
   else if (97 <=? n) && (n <=? 102) then Some (n - 87)
   else None)%N.

Definition hex4 (a b c d : ascii) : option N :=
  match hex_digit a, hex_digit b, hex_digit c, hex_digit d with
  | Some x, Some y, Some z, Some w => Some (((x * 16 + y) * 16 + z) * 16 + w)%N
  | _, _, _, _ => None
  end.

(** What one character or escape of a string literal denotes: a byte of
    the document, or the UTF-16 code unit of a [\uXXXX] escape. *)
Inductive Unit : Type :=
| Raw (c : ascii)
| U16 (n : N).

(** The short escapes: the character after the backslash and its meaning. *)
Definition short_escape (c : ascii) : option ascii :=
  let n := N_of_ascii c in
  (if n =? 34 then Some dquote
   else if n =? 92 then Some backslash
   else if n =? 47 then Some "/"%char
   else if n =? 98 then Some "008"%char
   else if n =? 102 then Some "012"%char
   else if n =? 110 then Some "010"%char
   else if n =? 114 then Some "013"%char
   else if n =? 116 then Some "009"%char
   else None)%N.

(** Well-formed UTF-8 (RFC 3629).  The first byte of a sequence tells its
    length: one byte below 0x80, two from 0xC2 to 0xDF, three from 0xE0 to
    0xEF, four from 0xF0 to 0xF4; no other byte starts a sequence. *)
Definition in_range (lo hi : N) (c : ascii) : bool :=
  let n := N_of_ascii c in ((lo <=? n) && (n <=? hi))%N.

Definition width (c : ascii) : nat :=
  if (N_of_ascii c <? 128)%N then 1%nat
  else if in_range 194 223 c then 2%nat
  else if in_range 224 239 c then 3%nat
  else if in_range 240 244 c then 4%nat
  else 0%nat.

(** The bytes after the first are from 0x80 to 0xBF, the second one in
    a narrower range after 0xE0 (no overlong form), 0xED (no surrogate),
    0xF0 (no overlong form) and 0xF4 (nothing above U+10FFFF). *)
Definition is_tail (c : ascii) : bool := in_range 128 191 c.

Definition second_ok (c1 c2 : ascii) : bool :=
  let n1 := N_of_ascii c1 in
  (if n1 =? 224 then in_range 160 191 c2
   else if n1 =? 237 then in_range 128 159 c2
   else if n1 =? 240 then in_range 144 191 c2
   else if n1 =? 244 then in_range 128 143 c2
   else is_tail c2)%N.

Fixpoint well_encoded (s : string) : bool :=
  match s with
  | EmptyString => true
  | String c rest =>
      match width c, rest with
      | 1%nat, _ => well_encoded rest
      | 2%nat, String c2 r2 => second_ok c c2 && well_encoded r2
      | 3%nat, String c2 (String c3 r3) =>
          second_ok c c2 && is_tail c3 && well_encoded r3
      | 4%nat, String c2 (String c3 (String c4 r4)) =>
          second_ok c c2 && is_tail c3 && is_tail c4 && well_encoded r4
      | _, _ => false
      end
  end.

(** The characters of a literal after its opening quote, up to and
    without the closing quote, and the text that follows the literal.  An
    unescaped control character, an unknown escape, a byte sequence that is
    not well-formed UTF-8 or a missing closing quote make the literal
    ill-formed. *)
Fixpoint string_tail (s : string) : option (list Unit * string) :=
  match s with
  | EmptyString => None
  | String c rest =>
      if Ascii.eqb c dquote then Some ([], rest)
      else if Ascii.eqb c backslash then
        match rest with
        | String e rest1 =>
            if Ascii.eqb e "u" then
              match rest1 with
              | String h1 (String h2 (String h3 (String h4 rest2))) =>
                  match hex4 h1 h2 h3 h4, string_tail rest2 with
                  | Some n, Some (us, after) => Some (U16 n :: us, after)
                  | _, _ => None
                  end
              | _ => None
              end
            else
              match short_escape e, string_tail rest1 with
              | Some x, Some (us, after) => Some (Raw x :: us, after)
              | _, _ => None
              end
        | EmptyString => None
        end
      else if (N_of_ascii c <? 32)%N then None
      else
        match width c, rest with
        | 1%nat, _ =>
            match string_tail rest with
            | Some (us, after) => Some (Raw c :: us, after)
            | None => None
            end
        | 2%nat, String c2 r2 =>
            if second_ok c c2 then
              match string_tail r2 with
              | Some (us, after) => Some (Raw c :: Raw c2 :: us, after)
              | None => None
              end
            else None
        | 3%nat, String c2 (String c3 r3) =>
            if second_ok c c2 && is_tail c3 then
              match string_tail r3 with
              | Some (us, after) => Some (Raw c :: Raw c2 :: Raw c3 :: us, after)
              | None => None
              end
            else None
        | 4%nat, String c2 (String c3 (String c4 r4)) =>
            if second_ok c c2 && is_tail c3 && is_tail c4 then
              match string_tail r4 with
              | Some (us, after) =>
                  Some (Raw c :: Raw c2 :: Raw c3 :: Raw c4 :: us, after)
              | None => None
              end
            else None
        | _, _ => None
        end
  end.

Definition utf8 (cp : N) : string :=
  let b (n : N) := ascii_of_N n in
  (if cp <? 128 then String (b cp) EmptyString
   else if cp <? 2048 then
     String (b (192 + cp / 64)) (String (b (128 + cp mod 64)) EmptyString)
   else if cp <? 65536 then
     String (b (224 + cp / 4096))
       (String (b (128 + (cp / 64) mod 64))
          (String (b (128 + cp mod 64)) EmptyString))
   else
     String (b (240 + cp / 262144))
       (String (b (128 + (cp / 4096) mod 64))
          (String (b (128 + (cp / 64) mod 64))
             (String (b (128 + cp mod 64)) EmptyString))))%N.

Definition is_high_surrogate (n : N) : bool := ((55296 <=? n) && (n <=? 56319))%N.
Definition is_low_surrogate (n : N) : bool := ((56320 <=? n) && (n <=? 57343))%N.

(** The bytes the units denote: a surrogate pair is one code point, a
    lone surrogate reads as U+FFFD. *)
Fixpoint render (us : list Unit) : string :=
  match us with
  | [] => EmptyString
  | Raw c :: rest => String c (render rest)
  | U16 hi :: rest =>
      if is_high_surrogate hi then
        match rest with
        | U16 lo :: rest' =>
            if is_low_surrogate lo
            then utf8 (65536 + (hi - 55296) * 1024 + (lo - 56320))%N +:+ render rest'
            else utf8 65533 +:+ render rest
        | _ => utf8 65533 +:+ render rest
        end
      else if is_low_surrogate hi then utf8 65533 +:+ render rest
      else utf8 hi +:+ render rest
  end.

(** A string literal, after optional white space. *)
Definition string_literal (s : string) : option (string * string) :=
  match expect dquote s with
  | Some s1 =>
      match string_tail s1 with
      | Some (us, after) => Some (render us, after)
      | None => None
      end
  | None => None
  end.

(** The whole document: [{ "msg" : <string> }] and nothing else. *)
Definition msg_envelope (body : string) : option string :=
  match expect "{" body with
  | Some s1 =>
      match string_literal s1 with
      | Some (key, s2) =>
          if (key =? "msg")%string then
            match expect ":" s2 with
            | Some s3 =>
                match string_literal s3 with
                | Some (val, s4) =>
                    match expect "}" s4 with
                    | Some s5 =>
                        match skip_ws s5 with
                        | EmptyString => Some val
                        | String _ _ => None
                        end
                    | None => None
                    end
                | None => None
                end
            | None => None
            end
          else None
      | None => None
      end
  | None => None
  end.

(** A message that can stand in a string literal as it is: no quote, no
    backslash and no control character. *)
Definition plain_char (c : ascii) : bool :=
  let n := N_of_ascii c in
  ((32 <=? n) && negb (n =? 34) && negb (n =? 92))%N.

Fixpoint plain (s : string) : bool :=
  match s with
  | EmptyString => true
  | String c rest => plain_char c && plain rest
  end.

End rfc8259.

(** ** Stand-in libraries

    Concrete libraries on which the handler can be run: the SDK structs are
    reduced to the fields the handler reads, and every library function
    answers what the scenario at hand prescribes, whatever it is called on. *)
Module Scenario.

Definition sdk : SDK :=
  {| aws_Config := string;
     endpoint_Policy := list string;
     acmpca_IssueCertificateInput := list byte;
     acmpca_Csr := fun csr => csr;
     acmpca_IssueCertificateResponse := string;
     acm_RequestCertificateInput := (option string * list string)%type;
     acm_DomainName := fst;
     acm_SubjectAlternativeNames := snd;
     acm_RequestCertificateResponse := string |}.

Definition world
  (unmarshal_issue : Result (@ACMPCAIssueCertificateRequest.t sdk))
  (unmarshal_request : Result (@VenafiRequestCertificateInput.t sdk))
  (decoded : Result (list byte))
  (parsed : Result certificate.Request)
  (policy : string -> Result (list string))
  (verdict : option error)
  (config : string * option error)
  (sent : Result string)
  (marshaled : Result (list byte)) : @Collaborators sdk :=
  {| Unmarshal_IssueCertificate := fun _ => unmarshal_issue;
     Unmarshal_RequestCertificate := fun _ => unmarshal_request;
     DecodeString := fun _ => decoded;
     SetCSR := fun _ _ => parsed;
     GetPolicy := policy;
     ValidateCertificateRequest := fun _ _ => verdict;
     LoadDefaultAWSConfig := config;
     IssueCertificate_Send := fun _ _ => sent;
     RequestCertificate_Send := fun _ _ => sent;
     Marshal_IssueCertificate := fun _ => marshaled;
     Marshal_RequestCertificate := fun _ => marshaled |}.

Definition pkg : @PackageMain sdk :=
  {| acmpcaListCertificateAuthorities := "ACMPrivateCA.ListCertificateAuthorities";
     acmpcaGetCertificate := "ACMPrivateCA.GetCertificate";
     Sprintf_errUnmarshalJson := fun target err =>
       Sprintf "Error unmarshaling JSON for target %s: %s" [target; err];
     passThru := fun _ _ _ =>
       @return_ sdk Empty_set
         ({| events.APIGatewayProxyResponse.StatusCode := http.StatusOK;
             events.APIGatewayProxyResponse.Body := "{}" |}, None) |}.

(** An inbound request for [target] with payload [body]. *)
Definition inbound (target body : string) : events.APIGatewayProxyRequest.t :=
  {| events.APIGatewayProxyRequest.Headers := {[ "X-Amz-Target" := target ]};
     events.APIGatewayProxyRequest.Body := body |}.

(** Payloads on the wire.  The last one lacks a comma between two members. *)
Definition quoted (s : string) : string := String dquote (s +:+ String dquote "").

Definition issue_body : string :=
  "{" +:+ quoted "Csr" +:+ ":" +:+ quoted "UTFOUw==" +:+ "}".

Definition request_body : string :=
  "{" +:+ quoted "DomainName" +:+ ":" +:+ quoted "test.example.com" +:+ ","
  +:+ quoted "SubjectAlternativeNames" +:+ ":[" +:+ quoted "www.example.com" +:+ "]}".

Definition broken_body : string :=
  "{" +:+ quoted "DomainName" +:+ ":" +:+ quoted "test.example.com" +:+ " "
  +:+ quoted "VenafiZone" +:+ ":" +:+ quoted "Default" +:+ "}".

(** The payloads as decoded, for a given VenafiZone member. *)
Definition issue_payload (zone : string) : @ACMPCAIssueCertificateRequest.t sdk :=
  @ACMPCAIssueCertificateRequest.Build_t sdk
    (list_byte_of_string "Q1NS") zone.

Definition request_payload (DomainName : option string) (zone : string)
  : @VenafiRequestCertificateInput.t sdk :=
  @VenafiRequestCertificateInput.Build_t sdk
    (DomainName, ["www.example.com"]) zone.

Definition pem : list byte := list_byte_of_string "CSR".

Definition parsed_request : certificate.Request :=
  {| certificate.Subject := pkix.zero;
     certificate.DNSNames := [];
     certificate.CsrOrigin := certificate.LocalGeneratedCSR;
     certificate.csr := pem |}.

(** The policy store knows every zone but Ghost. *)
Definition store (zone : string) : Result (list string) :=
  if (zone =? "Ghost")%string then Err "zone not found"
  else Ok [".*\.example\.com"].

Definition arn : string := "arn:aws:acm-pca:certificate/0001".
Definition arn_json : list byte := list_byte_of_string "{}".

(** Everything succeeds. *)
Definition all_well : @Collaborators sdk :=
  world (Ok (issue_payload "")) (Ok (request_payload (Some "test.example.com") ""))
        (Ok pem) (Ok parsed_request) store None ("us-east-1", None)
        (Ok arn) (Ok arn_json).

(** The backend client configuration cannot be loaded. *)
Definition no_config : @Collaborators sdk :=
  world (Ok (issue_payload "")) (Ok (request_payload (Some "test.example.com") ""))
        (Ok pem) (Ok parsed_request) store None ("", Some "no credentials")
        (Ok arn) (Ok arn_json).

(** The backend answers, and its answer cannot be serialized. *)
Definition no_marshal : @Collaborators sdk :=
  world (Ok (issue_payload "")) (Ok (request_payload (Some "test.example.com") ""))
        (Ok pem) (Ok parsed_request) store None ("us-east-1", None)
        (Ok arn) (Err "json: unsupported value").

(** The policy of the zone rejects the request. *)
Definition rejected : @Collaborators sdk :=
  world (Ok (issue_payload "")) (Ok (request_payload (Some "test.example.com") ""))
        (Ok pem) (Ok parsed_request) store
        (Some "common name test.example.com is not allowed in this policy")
        ("us-east-1", None) (Ok arn) (Ok arn_json).

(** The payload names the zone Ghost. *)
Definition ghost_zone : @Collaborators sdk :=
  world (Ok (issue_payload "Ghost"))
        (Ok (request_payload (Some "test.example.com") "Ghost"))
        (Ok pem) (Ok parsed_request) store None ("us-east-1", None)
        (Ok arn) (Ok arn_json).

(** The Csr field is not base64. *)
Definition bad_base64 : @Collaborators sdk :=
  world (Ok (issue_payload "")) (Ok (request_payload (Some "test.example.com") ""))
        (Err "illegal base64 data at input byte 3") (Ok parsed_request) store None
        ("us-east-1", None) (Ok arn) (Ok arn_json).

(** The managed-certificate payload has no DomainName. *)
Definition no_domain : @Collaborators sdk :=
  world (Ok (issue_payload "")) (Ok (request_payload None ""))
        (Ok pem) (Ok parsed_request) store None ("us-east-1", None)
        (Ok arn) (Ok arn_json).

(** The payload is not JSON: a comma is missing before a member name, and
    encoding/json quotes the offending character in its message. *)
Definition syntax_error : string :=
  "invalid character '" +:+ String dquote "' after object key:value pair".

Definition not_json : @Collaborators sdk :=
  world (Err syntax_error) (Err syntax_error)
        (Ok pem) (Ok parsed_request) store None ("us-east-1", None)
        (Ok arn) (Ok arn_json).

(** The backend refuses the request. *)
Definition backend_down : @Collaborators sdk :=
  world (Ok (issue_payload "")) (Ok (request_payload (Some "test.example.com") ""))
        (Ok pem) (Ok parsed_request) store None ("us-east-1", None)
        (Err "AccessDeniedException") (Ok arn_json).

(** The payload names the zone Staging. *)
Definition staging_zone : @Collaborators sdk :=
  world (Ok (issue_payload "Staging"))
        (Ok (request_payload (Some "test.example.com") "Staging"))
        (Ok pem) (Ok parsed_request) store None ("us-east-1", None)
        (Ok arn) (Ok arn_json).

End Scenario.

(** ** Proof automation *)

(** Case analysis of a run: the body of the handler is unfolded down to
    the answers of the libraries, and every answer is split into its cases. *)
Ltac unfold_handler h :=
  let t := eval cbv
    [venafiACMPCAIssueCertificateRequest venafiACMRequestCertificate
     json_Unmarshal_IssueCertificate json_Unmarshal_RequestCertificate
     base64_StdEncoding_DecodeString req_SetCSR common_GetPolicy
     policy_ValidateCertificateRequest external_LoadDefaultAWSConfig fmt_Println
     acmpca_Send acm_Send json_Marshal_IssueCertificate
     json_Marshal_RequestCertificate acm_New_RequestCertificateRequest
     check check_nil check_pair deref call bind ret return_ fst snd app] in h in
  change h with t.

Ltac case_answer :=
  match goal with
  | |- context [LoadDefaultAWSConfig] =>
      destruct LoadDefaultAWSConfig as [? [?|]] eqn:?
  | |- context [match ?o with Ok _ => _ | Err _ => _ end] => destruct o eqn:?
  | |- context [match ?o with Some _ => _ | None => _ end] => destruct o eqn:?
  | |- context [let (_, _) := ?o in _] => destruct o eqn:?
  end; cbv beta iota zeta.

Ltac run_cases :=
  repeat match goal with
  | |- context [venafiACMPCAIssueCertificateRequest ?r] =>
      unfold_handler (venafiACMPCAIssueCertificateRequest r)
  | |- context [venafiACMRequestCertificate ?r] =>
      unfold_handler (venafiACMRequestCertificate r)
  end;
  cbv beta iota zeta; repeat case_answer.

(** The canonical request the managed-certificate handler has built field
    by field, brought to the form of a record. *)
Ltac normalise_request :=
  cbv [canonical_of_names certificate.zero certificate.Subject
       certificate.DNSNames certificate.CsrOrigin certificate.csr] in *.

(** Membership of an entry in a log that has been computed. *)
Ltac in_log H :=
  cbv [log_of snd In] in H;
  repeat match type of H with _ \/ _ => destruct H as [H|H] end;
  try discriminate H; try contradiction H.

(** * Properties *)

Section Properties.
Context `{sdk : SDK} `{lib : !Collaborators} `{pkg : !PackageMain}.

(** ** Facts about call logs *)




(** The dispatcher hands a request for a gated operation to the function
    that serves it. *)
Lemma dispatch_gated (op : GatedOperation) (request : events.APIGatewayProxyRequest.t) :
  header request "X-Amz-Target" = gated_target op ->
  ACMPCAHandler request = gated_handler op request.
Proof.
  intros H. unfold ACMPCAHandler. rewrite H. destruct op; reflexivity.
Qed.


(** The body of an error response, spelled out. *)
Lemma clientError_body (status : Z) (msg : string) :
  events.APIGatewayProxyResponse.Body (fst (clientError status msg)) =
  ("{ " +:+ String dquote "msg" +:+ String dquote " : "
   +:+ String dquote msg +:+ String dquote " }").
Proof.
  cbv [clientError fst events.APIGatewayProxyResponse.Body].
  reflexivity.
Qed.

(** Defaulting the zone leaves the embedded SDK struct as it was. *)
Lemma IssueCertificateInput_kept (b : bool) (z : string)
  (c : ACMPCAIssueCertificateRequest.t) :
  ACMPCAIssueCertificateRequest.IssueCertificateInput
    (if b then ACMPCAIssueCertificateRequest.set_VenafiZone z c else c) =
  ACMPCAIssueCertificateRequest.IssueCertificateInput c.
Proof. destruct b; reflexivity. Qed.

Lemma RequestCertificateInput_kept (b : bool) (z : string)
  (c : VenafiRequestCertificateInput.t) :
  VenafiRequestCertificateInput.RequestCertificateInput
    (if b then VenafiRequestCertificateInput.set_VenafiZone z c else c) =
  VenafiRequestCertificateInput.RequestCertificateInput c.
Proof. destruct b; reflexivity. Qed.

(** The zone the handler resolves is the zone of the request. *)
Lemma IssueCertificate_zone (c : ACMPCAIssueCertificateRequest.t) :
  ACMPCAIssueCertificateRequest.VenafiZone
    (if (ACMPCAIssueCertificateRequest.VenafiZone c =? "")%string
     then ACMPCAIssueCertificateRequest.set_VenafiZone "Default" c else c) =
  zone_or_default (ACMPCAIssueCertificateRequest.VenafiZone c).
Proof.
  unfold zone_or_default.
  destruct (ACMPCAIssueCertificateRequest.VenafiZone c =? "")%string; reflexivity.
Qed.

Lemma RequestCertificate_zone (c : VenafiRequestCertificateInput.t) :
  VenafiRequestCertificateInput.VenafiZone
    (if (VenafiRequestCertificateInput.VenafiZone c =? "")%string
     then VenafiRequestCertificateInput.set_VenafiZone "Default" c else c) =
  zone_or_default (VenafiRequestCertificateInput.VenafiZone c).
Proof.
  unfold zone_or_default.
  destruct (VenafiRequestCertificateInput.VenafiZone c =? "")%string; reflexivity.
Qed.

(** C2, as amended.  A gated request that decodes, whose zone has a
    policy and whose canonical request that policy accepts makes exactly
    one backend call, on the SDK struct exactly as the decoder produced it
    from the inbound body, provided that the backend client configuration
    loads; and when that call succeeds the handler returns status 200 with
    the serialization of its answer as body. *)
Theorem approved_request_reaches_backend
  (op : GatedOperation) (request : events.APIGatewayProxyRequest.t)
  (zone : string) (policy : endpoint_Policy) (req : certificate.Request) :
  canonical_request op request = Some (zone, req) ->
  GetPolicy zone = Ok policy ->
  ValidateCertificateRequest policy req = None ->
  snd LoadDefaultAWSConfig = None ->
  invoked_with_original op request (log_of (gated_handler op request)) /\
  relays_backend_answer (gated_handler op request).
Proof.
  intros Hc Hp Hv Hl; revert Hc Hp Hv Hl.
  destruct op; cbv [canonical_request decode_IssueCertificate gated_handler];
    run_cases; intros Hc Hp Hv Hl; try discriminate Hc; try discriminate Hl;
    injection Hc as <- <-;
    rewrite ?IssueCertificate_zone, ?RequestCertificate_zone in *;
    normalise_request;
    try congruence;
    cbv [invoked_with_original relays_backend_answer relayed log_of result_of
         fst snd backend_calls List.filter is_backend_call In];
    rewrite ?IssueCertificateInput_kept, ?RequestCertificateInput_kept in *;
    (split;
     [ eexists;
       match goal with
       | |- exists cfg, _ /\ [_ ?g _ _] = _ => exists g
       end; split; [first [eassumption | reflexivity] | congruence]
     | intros ev [<- | []]; try exact I; intros; congruence ]).
Qed.

(** C3. In the private-CA operation each of the three kinds of decoding
    failure is answered with status 422 and the message of its kind, and
    the run has called neither the policy store, nor the validator, nor the
    backend. *)
Theorem decode_failure_unprocessable
  (request : events.APIGatewayProxyRequest.t) (f : DecodeFailure) :
  decode_IssueCertificate (events.APIGatewayProxyRequest.Body request) = inl f ->
  result_of (venafiACMPCAIssueCertificateRequest request) =
    Return (clientError http.StatusUnprocessableEntity (decode_failure_message f)) /\
  existsb is_policy_call (log_of (venafiACMPCAIssueCertificateRequest request)) = false /\
  backend_calls (log_of (venafiACMPCAIssueCertificateRequest request)) = [].
Proof.
  cbv [decode_IssueCertificate]. run_cases; intros H;
    try discriminate H; injection H as <-; repeat split.
Qed.

(** C4. In both gated operations, when the request decodes, its zone
    has a policy and that policy rejects the canonical request, the handler
    returns status 403 with, as message, the reason of the validator as it
    is, and makes no backend call. *)
Theorem rejection_is_forbidden
  (op : GatedOperation) (request : events.APIGatewayProxyRequest.t)
  (zone : string) (policy : endpoint_Policy) (req : certificate.Request)
  (reason : error) :
  canonical_request op request = Some (zone, req) ->
  GetPolicy zone = Ok policy ->
  ValidateCertificateRequest policy req = Some reason ->
  result_of (gated_handler op request) =
    Return (clientError http.StatusForbidden reason) /\
  backend_calls (log_of (gated_handler op request)) = [].
Proof.
  intros Hc Hp Hv; revert Hc Hp Hv.
  destruct op; cbv [canonical_request decode_IssueCertificate gated_handler];
    run_cases; intros Hc Hp Hv; try discriminate Hc;
    injection Hc as <- <-;
    rewrite ?IssueCertificate_zone, ?RequestCertificate_zone in *;
    normalise_request;
    try congruence;
    (split; [cbv [result_of fst]; do 2 f_equal; congruence | reflexivity]).
Qed.

(** C5. In both gated operations, when the request decodes and the policy
    of its zone cannot be resolved, the handler returns status 424 with
    the error of the resolver in the message, a status that is not the 403
    of a rejection, and makes no backend call. *)
Theorem resolution_failure_is_failed_dependency
  (op : GatedOperation) (request : events.APIGatewayProxyRequest.t)
  (zone : string) (req : certificate.Request) (err : error) :
  canonical_request op request = Some (zone, req) ->
  GetPolicy zone = Err err ->
  result_of (gated_handler op request) =
    Return (clientError http.StatusFailedDependency
              (Sprintf "Failed get policy from database: %s" [err])) /\
  status_of (result_of (gated_handler op request)) <> Some http.StatusForbidden /\
  backend_calls (log_of (gated_handler op request)) = [].
Proof.
  intros Hc Hp; revert Hc Hp.
  destruct op; cbv [canonical_request decode_IssueCertificate gated_handler];
    run_cases; intros Hc Hp; try discriminate Hc;
    injection Hc as <- <-;
    rewrite ?IssueCertificate_zone, ?RequestCertificate_zone in *;
    normalise_request;
    try congruence;
    (split; [cbv [result_of fst]; do 3 f_equal; congruence
            | split; [discriminate | reflexivity]]).
Qed.

(** C6. In both gated operations, a payload that decodes and whose
    VenafiZone is empty (the value the decoder leaves when the member is
    absent) has its policy resolved exactly once, for the zone Default. *)
Theorem empty_zone_resolves_Default
  (op : GatedOperation) (request : events.APIGatewayProxyRequest.t) :
  payload_zone op request = Some "" ->
  List.filter is_resolution (log_of (gated_handler op request)) =
    [EvGetPolicy "Default" (GetPolicy "Default")].
Proof.
  destruct op; cbv [payload_zone decode_IssueCertificate gated_handler];
    run_cases; intros H; try discriminate H; injection H as H;
    rewrite H in *; cbn in *; congruence.
Qed.

(** C7, as amended.  In the private-CA operation a failure to load the
    backend client configuration ends the request: whenever the loading
    was made and answered an error, and so whenever the request decodes,
    the policy of its zone accepts it and the loader answers an error, the
    handler returns status 500 with the loader's error in the message and
    makes no backend call. *)
Theorem config_failure_is_fatal_for_IssueCertificate
  (request : events.APIGatewayProxyRequest.t) (cfg : aws_Config) (err : error) :
  In (EvLoadConfig (cfg, Some err))
     (log_of (venafiACMPCAIssueCertificateRequest request)) \/
  (exists zone policy req,
     canonical_request IssueCertificate request = Some (zone, req) /\
     GetPolicy zone = Ok policy /\
     ValidateCertificateRequest policy req = None /\
     LoadDefaultAWSConfig = (cfg, Some err)) ->
  result_of (venafiACMPCAIssueCertificateRequest request) =
    Return (clientError http.StatusInternalServerError
              (Sprintf "Error loading client: %s" [err])) /\
  backend_calls (log_of (venafiACMPCAIssueCertificateRequest request)) = [].
Proof.
  intros [H | (zone & policy & req & Hc & Hp & Hv & Hl)].
  - revert H. run_cases; intros H; in_log H;
      injection H; intros; subst; split; reflexivity.
  - revert Hc Hp Hv Hl.
    cbv [canonical_request decode_IssueCertificate]; run_cases;
      intros Hc Hp Hv Hl; try discriminate Hc; try discriminate Hl;
      injection Hc as <- <-; injection Hl as <- <-;
      rewrite ?IssueCertificate_zone in *;
      try congruence; split; reflexivity.
Qed.

(** C8. In the managed-certificate operation, once the payload has been
    unmarshaled the handler dereferences DomainName at once: it returns a
    response only if the payload has a DomainName, and without one it
    panics right after the unmarshaling, with no response and no other
    call. *)
Theorem RequestCertificate_needs_DomainName
  (request : events.APIGatewayProxyRequest.t)
  (certRequest : VenafiRequestCertificateInput.t) :
  Unmarshal_RequestCertificate
    (list_byte_of_string (events.APIGatewayProxyRequest.Body request)) =
    Ok certRequest ->
  ((exists r, result_of (venafiACMRequestCertificate request) = Return r) ->
   VenafiRequestCertificateInput.DomainName certRequest <> None) /\
  (VenafiRequestCertificateInput.DomainName certRequest = None ->
   venafiACMRequestCertificate request =
     (Panic,
      [EvUnmarshalRequestCertificate
         (list_byte_of_string (events.APIGatewayProxyRequest.Body request))
         (Ok certRequest)])).
Proof.
  run_cases; intros H; try discriminate H; injection H as <-;
    cbv [result_of fst];
    (split; [intros [r Hr] | intros Hd]);
    try congruence; try discriminate; eauto.
Qed.

(** C10. A request whose X-Amz-Target is none of the four registered
    operation identifiers is answered with status 405 and the fixed
    message, whatever its payload, and no library is called at all: no
    decoding, no policy call and no backend call. *)
Theorem unknown_target_not_allowed (request : events.APIGatewayProxyRequest.t) :
  ~ In (header request "X-Amz-Target") registry ->
  ACMPCAHandler request =
    (Return (clientError http.StatusMethodNotAllowed
               "Can't determine requested method"), []).
Proof.
  intros H. unfold ACMPCAHandler.
  repeat match goal with
  | |- context [(?a =? ?b)%string] =>
      destruct (String.eqb_spec a b) as [E|?];
      [exfalso; apply H; rewrite E; cbv [registry In]; tauto |]
  end.
  reflexivity.
Qed.

End Properties.

(** ** The error envelope *)

Lemma render_Raw (l : list ascii) :
  rfc8259.render (map rfc8259.Raw l) = string_of_list_ascii l.
Proof. induction l as [|c l IH]; simpl; [reflexivity | now rewrite IH]. Qed.

Lemma length_append (a b : string) :
  String.length (a +:+ b) = (String.length a + String.length b)%nat.
Proof. induction a as [|c a IH]; simpl; [reflexivity | now rewrite IH]. Qed.

Lemma append_assoc (a b c : string) : (a +:+ b) +:+ c = a +:+ (b +:+ c).
Proof.
  induction a as [|x a IH]; [reflexivity |].
  change (String x ((a +:+ b) +:+ c) = String x (a +:+ (b +:+ c))).
  now rewrite IH.
Qed.

Lemma append_same_length (a b c d : string) :
  a +:+ b = c +:+ d -> String.length a = String.length c -> a = c /\ b = d.
Proof.
  revert c. induction a as [|x a IH]; intros [|y c] H Hl; try discriminate Hl.
  - auto.
  - simpl in H. injection H as -> H. injection Hl as Hl.
    destruct (IH c H Hl) as [-> ->]. auto.
Qed.

(** A byte from 0x80 on is no quote, no backslash and no control
    character. *)
Lemma high_byte_plain (c : ascii) :
  (128 <=? N_of_ascii c)%N = true -> rfc8259.plain_char c = true.
Proof.
  intros H. apply N.leb_le in H. unfold rfc8259.plain_char.
  rewrite !andb_true_iff, !negb_true_iff, !N.eqb_neq, N.leb_le. lia.
Qed.

Lemma in_range_high (lo hi : N) (c : ascii) :
  (128 <= lo)%N -> rfc8259.in_range lo hi c = true -> rfc8259.plain_char c = true.
Proof.
  unfold rfc8259.in_range. intros Hlo H.
  apply andb_true_iff in H as [H _]. apply N.leb_le in H.
  apply high_byte_plain. apply N.leb_le. lia.
Qed.

Lemma tail_plain (c : ascii) :
  rfc8259.is_tail c = true -> rfc8259.plain_char c = true.
Proof. apply in_range_high. lia. Qed.

Lemma second_plain (c1 c2 : ascii) :
  rfc8259.second_ok c1 c2 = true -> rfc8259.plain_char c2 = true.
Proof.
  unfold rfc8259.second_ok, rfc8259.is_tail.
  repeat match goal with |- context [if ?b then _ else _] => destruct b end;
    apply in_range_high; lia.
Qed.

(** What [plain_char] says of the three tests [string_tail] makes first. *)
Lemma plain_char_tests (c : ascii) :
  rfc8259.plain_char c = true <->
  Ascii.eqb c dquote = false /\ Ascii.eqb c backslash = false /\
  (N_of_ascii c <? 32)%N = false.
Proof.
  unfold rfc8259.plain_char.
  rewrite !andb_true_iff, !negb_true_iff, !N.eqb_neq, N.leb_le, N.ltb_ge,
    !Ascii.eqb_neq.
  split.
  - intros [[Hlo Hq] Hb]. repeat split; [intros -> | intros -> | exact Hlo];
      [apply Hq | apply Hb]; reflexivity.
  - intros (Hq & Hb & Hlo). repeat split; [exact Hlo | |]; intros E;
      [apply Hq | apply Hb]; rewrite <- (ascii_N_embedding c), E; reflexivity.
Qed.

(** A plain, well-encoded text followed by a quote is a string literal
    that denotes the text itself. *)
Lemma string_tail_plain (n : nat) :
  forall (msg rest : string),
  (String.length msg <= n)%nat ->
  rfc8259.plain msg = true ->
  rfc8259.well_encoded msg = true ->
  rfc8259.string_tail (msg +:+ String dquote rest) =
    Some (map rfc8259.Raw (list_ascii_of_string msg), rest).
Proof.
  induction n as [|n IH]; intros msg rest Hn Hp Hw.
  - destruct msg; [reflexivity | simpl in Hn; lia].
  - destruct msg as [|c m]; [reflexivity |].
    simpl in Hn, Hp. apply andb_true_iff in Hp as [Hc Hm].
    apply plain_char_tests in Hc as (Eq & Eb & Elo).
    cbn [rfc8259.well_encoded] in Hw.
    change (String c m +:+ String dquote rest)
      with (String c (m +:+ String dquote rest)).
    cbn [rfc8259.string_tail]. rewrite Eq, Eb, Elo.
    destruct (rfc8259.width c) as [|[|[|[|[|w]]]]]; try discriminate Hw.
    + rewrite (IH m rest) by (assumption || lia). reflexivity.
    + destruct m as [|c2 r2]; [discriminate Hw |].
      simpl in Hn, Hm. apply andb_true_iff in Hm as [_ Hm].
      apply andb_true_iff in Hw as [H2 Hw].
      change (String c2 r2 +:+ String dquote rest)
        with (String c2 (r2 +:+ String dquote rest)).
      cbv beta iota. rewrite H2.
      rewrite (IH r2 rest) by (assumption || lia). reflexivity.
    + destruct m as [|c2 [|c3 r3]]; try discriminate Hw.
      simpl in Hn, Hm.
      apply andb_true_iff in Hm as [_ Hm]. apply andb_true_iff in Hm as [_ Hm].
      apply andb_true_iff in Hw as [H23 Hw].
      change (String c2 (String c3 r3) +:+ String dquote rest)
        with (String c2 (String c3 (r3 +:+ String dquote rest))).
      cbv beta iota. rewrite H23.
      rewrite (IH r3 rest) by (assumption || lia). reflexivity.
    + destruct m as [|c2 [|c3 [|c4 r4]]]; try discriminate Hw.
      simpl in Hn, Hm.
      apply andb_true_iff in Hm as [_ Hm]. apply andb_true_iff in Hm as [_ Hm].
      apply andb_true_iff in Hm as [_ Hm].
      apply andb_true_iff in Hw as [H234 Hw].
      change (String c2 (String c3 (String c4 r4)) +:+ String dquote rest)
        with (String c2 (String c3 (String c4 (r4 +:+ String dquote rest)))).
      cbv beta iota. rewrite H234.
      rewrite (IH r4 rest) by (assumption || lia). reflexivity.
Qed.

(** A message without quote, backslash or control character, in
    well-formed UTF-8, is carried by a well-formed envelope. *)
Lemma clientError_envelope_plain (status : Z) (msg : string) :
  rfc8259.plain msg = true ->
  rfc8259.well_encoded msg = true ->
  rfc8259.msg_envelope
    (events.APIGatewayProxyResponse.Body (fst (clientError status msg))) = Some msg.
Proof.
  intros Hp Hw. rewrite clientError_body.
  unfold rfc8259.msg_envelope.
  simpl. unfold rfc8259.string_literal.
  change (rfc8259.expect dquote _) with (Some (msg +:+ String dquote " }")).
  cbv beta iota.
  rewrite (string_tail_plain _ msg _ (le_n _) Hp Hw), render_Raw,
    string_of_list_ascii_of_string.
  reflexivity.
Qed.

Lemma length_utf8 (cp : N) : (String.length (rfc8259.utf8 cp) <= 4)%nat.
Proof.
  unfold rfc8259.utf8.
  repeat match goal with |- context [if ?b then _ else _] => destruct b end;
    simpl; lia.
Qed.

Lemma low_surrogate_not_high (n : N) :
  rfc8259.is_low_surrogate n = true -> rfc8259.is_high_surrogate n = false.
Proof.
  unfold rfc8259.is_low_surrogate, rfc8259.is_high_surrogate. intros H.
  apply andb_true_iff in H as [H _]. apply N.leb_le in H.
  apply andb_false_iff. right. apply N.leb_gt. lia.
Qed.

Lemma length_render_U16 (n : N) (us : list rfc8259.Unit) :
  (String.length (rfc8259.render (rfc8259.U16 n :: us)) <=
   4 + String.length (rfc8259.render us))%nat.
Proof.
  pose proof (length_utf8 65533) as Hr.
  cbn [rfc8259.render].
  destruct (rfc8259.is_high_surrogate n).
  - destruct us as [|[c|lo] rest].
    + rewrite length_append. simpl. lia.
    + rewrite length_append. lia.
    + destruct (rfc8259.is_low_surrogate lo) eqn:Hlo.
      * rewrite length_append.
        pose proof (length_utf8 (65536 + (n - 55296) * 1024 + (lo - 56320))).
        assert (String.length (rfc8259.render rest) <=
                String.length (rfc8259.render (rfc8259.U16 lo :: rest)))%nat; [|lia].
        cbn [rfc8259.render]. rewrite (low_surrogate_not_high _ Hlo), Hlo.
        rewrite length_append. lia.
      * rewrite length_append. lia.
  - destruct (rfc8259.is_low_surrogate n); rewrite length_append;
      [| pose proof (length_utf8 n)]; lia.
Qed.

(** What [rfc8259.string_tail] consumes: the literal up to its closing
    quote.  The decoded text is never longer than the text consumed, and it
    is as long only when the text consumed is plain, well encoded and
    decodes to itself. *)
Lemma string_tail_consumes (n : nat) :
  forall (s : string) (us : list rfc8259.Unit) (after : string),
  (String.length s <= n)%nat ->
  rfc8259.string_tail s = Some (us, after) ->
  exists pre,
    s = pre +:+ String dquote after /\
    (String.length (rfc8259.render us) <= String.length pre)%nat /\
    (String.length (rfc8259.render us) = String.length pre ->
     pre = rfc8259.render us /\ rfc8259.plain pre = true /\
     rfc8259.well_encoded pre = true).
Proof.
  induction n as [|n IH]; intros s us after Hn H.
  - destruct s; [discriminate H | simpl in Hn; lia].
  - destruct s as [|c rest]; [discriminate H|].
    simpl in Hn. cbn [rfc8259.string_tail] in H.
    destruct (Ascii.eqb c dquote) eqn:Eq.
    { apply Ascii.eqb_eq in Eq as ->. injection H as <- <-. exists "".
      split; [reflexivity |]. split; [reflexivity |]. intros _.
      repeat split. }
    destruct (Ascii.eqb c backslash) eqn:Eb.
    { apply Ascii.eqb_eq in Eb as ->.
      destruct rest as [|e rest1]; [discriminate H|].
      destruct (Ascii.eqb e "u").
      - destruct rest1 as [|h1 [|h2 [|h3 [|h4 rest2]]]]; try discriminate H.
        destruct (rfc8259.hex4 h1 h2 h3 h4) as [k|]; [|discriminate H].
        destruct (rfc8259.string_tail rest2) as [[us' after']|] eqn:Ht;
          [|discriminate H].
        injection H as <- <-.
        destruct (IH rest2 us' after') as (pre & -> & Hle & _);
          [simpl in Hn; lia | exact Ht |].
        pose proof (length_render_U16 k us') as Hu.
        remember (rfc8259.render (rfc8259.U16 k :: us')) as r.
        exists (String backslash (String e (String h1 (String h2 (String h3
                 (String h4 pre)))))).
        split; [reflexivity |]. simpl. split; lia.
      - destruct (rfc8259.short_escape e) as [x|]; [|discriminate H].
        destruct (rfc8259.string_tail rest1) as [[us' after']|] eqn:Ht;
          [|discriminate H].
        injection H as <- <-.
        destruct (IH rest1 us' after') as (pre & -> & Hle & _);
          [simpl in Hn; lia | exact Ht |].
        exists (String backslash (String e pre)).
        split; [reflexivity |]. simpl. split; lia. }
    destruct (N_of_ascii c <? 32)%N eqn:Elo; [discriminate H|].
    assert (Hc : rfc8259.plain_char c = true)
      by (apply plain_char_tests; auto).
    destruct (rfc8259.width c) as [|[|[|[|[|w]]]]] eqn:W; try discriminate H.
    + destruct (rfc8259.string_tail rest) as [[us' after']|] eqn:Ht;
        [|discriminate H].
      injection H as <- <-.
      destruct (IH rest us' after') as (pre & -> & Hle & Heq);
        [lia | exact Ht |].
      exists (String c pre). split; [reflexivity |]. simpl. split; [lia |].
      intros E. destruct Heq as (-> & Hp & Hw); [lia |].
      rewrite W, Hc, Hp, Hw. repeat split.
    + destruct rest as [|c2 r2]; [discriminate H |].
      destruct (rfc8259.second_ok c c2) eqn:H2; [|discriminate H].
      destruct (rfc8259.string_tail r2) as [[us' after']|] eqn:Ht;
        [|discriminate H].
      injection H as <- <-.
      destruct (IH r2 us' after') as (pre & -> & Hle & Heq);
        [simpl in Hn; lia | exact Ht |].
      exists (String c (String c2 pre)). split; [reflexivity |].
      simpl. split; [lia |].
      intros E. destruct Heq as (-> & Hp & Hw); [lia |].
      rewrite W, H2, Hc, (second_plain _ _ H2), Hp, Hw. repeat split.
    + destruct rest as [|c2 [|c3 r3]]; try discriminate H.
      destruct (rfc8259.second_ok c c2) eqn:H2; [|discriminate H].
      destruct (rfc8259.is_tail c3) eqn:H3; [|discriminate H].
      destruct (rfc8259.string_tail r3) as [[us' after']|] eqn:Ht;
        [|discriminate H].
      injection H as <- <-.
      destruct (IH r3 us' after') as (pre & -> & Hle & Heq);
        [simpl in Hn; lia | exact Ht |].
      exists (String c (String c2 (String c3 pre))). split; [reflexivity |].
      simpl. split; [lia |].
      intros E. destruct Heq as (-> & Hp & Hw); [lia |].
      rewrite W, H2, H3, Hc, (second_plain _ _ H2), (tail_plain _ H3), Hp, Hw.
      repeat split.
    + destruct rest as [|c2 [|c3 [|c4 r4]]]; try discriminate H.
      destruct (rfc8259.second_ok c c2) eqn:H2; [|discriminate H].
      destruct (rfc8259.is_tail c3) eqn:H3; [|discriminate H].
      destruct (rfc8259.is_tail c4) eqn:H4; [|discriminate H].
      destruct (rfc8259.string_tail r4) as [[us' after']|] eqn:Ht;
        [|discriminate H].
      injection H as <- <-.
      destruct (IH r4 us' after') as (pre & -> & Hle & Heq);
        [simpl in Hn; lia | exact Ht |].
      exists (String c (String c2 (String c3 (String c4 pre)))).
      split; [reflexivity |]. simpl. split; [lia |].
      intros E. destruct Heq as (-> & Hp & Hw); [lia |].
      rewrite W, H2, H3, H4, Hc, (second_plain _ _ H2), (tail_plain _ H3),
        (tail_plain _ H4), Hp, Hw.
      repeat split.
Qed.

(** X11. The body of an error response is a well-formed envelope that
    carries the message exactly when the message has no double quote, no
    backslash and no control character and is well-formed UTF-8. *)
Theorem clientError_envelope_iff (status : Z) (msg : string) :
  rfc8259.msg_envelope
    (events.APIGatewayProxyResponse.Body (fst (clientError status msg))) = Some msg
  <-> rfc8259.plain msg = true /\ rfc8259.well_encoded msg = true.
Proof.
  split; [| intros [Hp Hw]; apply clientError_envelope_plain; assumption].
  rewrite clientError_body. unfold rfc8259.msg_envelope. simpl.
  unfold rfc8259.string_literal.
  change (rfc8259.expect dquote _) with (Some (msg +:+ String dquote " }")).
  cbv beta iota.
  destruct (rfc8259.string_tail (msg +:+ String dquote " }")) as [[us after]|] eqn:Ht;
    [|discriminate].
  destruct (string_tail_consumes _ _ _ _ (le_n _) Ht) as (pre & Hs & Hle & Heq).
  destruct (rfc8259.expect "}" after) as [s5|] eqn:Hclose; [|discriminate].
  destruct (rfc8259.skip_ws s5) eqn:Hend; [|discriminate].
  intros H; injection H as Hv. rewrite Hv in *.
  pose proof (f_equal String.length Hs) as Hlen.
  rewrite !length_append in Hlen. simpl in Hlen.
  destruct (Nat.eq_dec (String.length msg) (String.length pre)) as [E|E].
  { destruct (Heq E) as (-> & Hp & Hw). split; assumption. }
  exfalso.
  destruct after as [|x [|y after]]; simpl in Hlen; try lia.
  - discriminate Hclose.
  - assert (String.length (msg +:+ String dquote "") = String.length pre) as El.
    { rewrite length_append. simpl. lia. }
    assert (msg +:+ String dquote " }" = (msg +:+ String dquote "") +:+ " }")
      as Ha.
    { rewrite append_assoc. reflexivity. }
    rewrite Ha in Hs.
    apply append_same_length in Hs as [_ Hs]; [| exact El].
    discriminate Hs.
Qed.

(** * The properties on the stand-in libraries *)

Section Scenarios.
Import Scenario.
#[local] Existing Instance Scenario.sdk.
#[local] Existing Instance Scenario.pkg.


(** C2 as the claim states it fails when the backend client
    configuration does not load.  Both requests below decode and are
    accepted by the policy of their zone, and the backend is never called:
    the private-CA handler returns status 500, the managed-certificate
    handler panics while it builds its request. *)
Lemma approved_request_not_always_relayed :
  (let request := inbound acmpcaIssueCertificate issue_body in
   let run := gated_handler (lib := no_config) IssueCertificate request in
   canonical_request (lib := no_config) IssueCertificate request =
     Some ("Default", parsed_request) /\
   GetPolicy (Collaborators := no_config) "Default" = Ok [".*\.example\.com"] /\
   ValidateCertificateRequest (Collaborators := no_config)
     [".*\.example\.com"] parsed_request = None /\
   backend_calls (log_of run) = [] /\
   result_of run =
     Return (clientError http.StatusInternalServerError
               "Error loading client: no credentials")) /\
  (let request := inbound acmRequestCertificate request_body in
   let run := gated_handler (lib := no_config) RequestCertificate request in
   canonical_request (lib := no_config) RequestCertificate request =
     Some ("Default", canonical_of_names "test.example.com" ["www.example.com"]) /\
   GetPolicy (Collaborators := no_config) "Default" = Ok [".*\.example\.com"] /\
   ValidateCertificateRequest (Collaborators := no_config)
     [".*\.example\.com"]
     (canonical_of_names "test.example.com" ["www.example.com"]) = None /\
   backend_calls (log_of run) = [] /\
   result_of run = Panic).
Proof. repeat split. Qed.

Lemma approved_request_reaches_backend_witness :
  let request := inbound acmRequestCertificate request_body in
  let run := gated_handler (lib := all_well) RequestCertificate request in
  canonical_request (lib := all_well) RequestCertificate request =
    Some ("Default", canonical_of_names "test.example.com" ["www.example.com"]) /\
  invoked_with_original (lib := all_well) RequestCertificate request (log_of run) /\
  relays_backend_answer (lib := all_well) run.
Proof.
  split; [reflexivity |].
  apply (approved_request_reaches_backend (lib := all_well) RequestCertificate
           (inbound acmRequestCertificate request_body)
           "Default" [".*\.example\.com"]
           (canonical_of_names "test.example.com" ["www.example.com"]));
    reflexivity.
Defined.

Lemma decode_failure_unprocessable_witness :
  let request := inbound acmpcaIssueCertificate issue_body in
  decode_IssueCertificate (lib := bad_base64) issue_body =
    inl (InvalidEncoding "illegal base64 data at input byte 3") /\
  result_of (venafiACMPCAIssueCertificateRequest (lib := bad_base64) request) =
    Return (clientError http.StatusUnprocessableEntity "Can`t decode csr from base64") /\
  existsb is_policy_call
    (log_of (venafiACMPCAIssueCertificateRequest (lib := bad_base64) request)) = false /\
  backend_calls
    (log_of (venafiACMPCAIssueCertificateRequest (lib := bad_base64) request)) = [].
Proof.
  split; [reflexivity |].
  apply (decode_failure_unprocessable (lib := bad_base64)
           (inbound acmpcaIssueCertificate issue_body)
           (InvalidEncoding "illegal base64 data at input byte 3")).
  reflexivity.
Defined.

Lemma rejection_is_forbidden_witness :
  let request := inbound acmpcaIssueCertificate issue_body in
  let run := gated_handler (lib := rejected) IssueCertificate request in
  let reason := "common name test.example.com is not allowed in this policy" in
  canonical_request (lib := rejected) IssueCertificate request =
    Some ("Default", parsed_request) /\
  result_of run = Return (clientError http.StatusForbidden reason) /\
  backend_calls (log_of run) = [].
Proof.
  split; [reflexivity |].
  apply (rejection_is_forbidden (lib := rejected) IssueCertificate
           (inbound acmpcaIssueCertificate issue_body)
           "Default" [".*\.example\.com"] parsed_request);
    reflexivity.
Defined.

Lemma resolution_failure_is_failed_dependency_witness :
  let request := inbound acmRequestCertificate request_body in
  let run := gated_handler (lib := ghost_zone) RequestCertificate request in
  canonical_request (lib := ghost_zone) RequestCertificate request =
    Some ("Ghost", canonical_of_names "test.example.com" ["www.example.com"]) /\
  result_of run =
    Return (clientError http.StatusFailedDependency
              (Sprintf "Failed get policy from database: %s" ["zone not found"])) /\
  status_of (result_of run) <> Some http.StatusForbidden /\
  backend_calls (log_of run) = [].
Proof.
  split; [reflexivity |].
  apply (resolution_failure_is_failed_dependency (lib := ghost_zone)
           RequestCertificate (inbound acmRequestCertificate request_body)
           "Ghost" (canonical_of_names "test.example.com" ["www.example.com"])
           "zone not found");
    reflexivity.
Defined.

Lemma empty_zone_resolves_Default_witness :
  let request := inbound acmRequestCertificate request_body in
  payload_zone (lib := all_well) RequestCertificate request = Some "" /\
  List.filter is_resolution
    (log_of (gated_handler (lib := all_well) RequestCertificate request)) =
    [@EvGetPolicy sdk "Default" (GetPolicy (Collaborators := all_well) "Default")].
Proof.
  split; [reflexivity |].
  apply (empty_zone_resolves_Default (lib := all_well) RequestCertificate
           (inbound acmRequestCertificate request_body)).
  reflexivity.
Defined.

(** C7 as the claim states it fails in both operations when the client
    configuration does not load.  The private-CA handler stops, with status
    500 and not with the status 424 of a failed dependency; the
    managed-certificate handler prints the error, goes on, and panics while
    it builds its request: it returns no response at all. *)
Lemma config_failure_not_a_failed_dependency :
  (let run := venafiACMPCAIssueCertificateRequest (lib := no_config)
                (inbound acmpcaIssueCertificate issue_body) in
   In (@EvLoadConfig sdk ("", Some "no credentials")) (log_of run) /\
   result_of run =
     Return (clientError http.StatusInternalServerError
               "Error loading client: no credentials") /\
   http.StatusInternalServerError <> http.StatusFailedDependency) /\
  (let run := venafiACMRequestCertificate (lib := no_config)
                (inbound acmRequestCertificate request_body) in
   In (@EvLoadConfig sdk ("", Some "no credentials")) (log_of run) /\
   last (log_of run) = Some (@EvPrintln sdk ["Error loading client"; "no credentials"]) /\
   result_of run = Panic).
Proof.
  split; (split; [vm_compute; tauto | split; [reflexivity |]]).
  - discriminate.
  - reflexivity.
Qed.

Lemma config_failure_is_fatal_for_IssueCertificate_witness :
  let request := inbound acmpcaIssueCertificate issue_body in
  let run := venafiACMPCAIssueCertificateRequest (lib := no_config) request in
  (canonical_request (lib := no_config) IssueCertificate request =
     Some ("Default", parsed_request) /\
   GetPolicy (Collaborators := no_config) "Default" = Ok [".*\.example\.com"] /\
   ValidateCertificateRequest (Collaborators := no_config)
     [".*\.example\.com"] parsed_request = None /\
   LoadDefaultAWSConfig (Collaborators := no_config) = ("", Some "no credentials")) /\
  result_of run =
    Return (clientError http.StatusInternalServerError
              (Sprintf "Error loading client: %s" ["no credentials"])) /\
  backend_calls (log_of run) = [].
Proof.
  split; [repeat split |].
  apply (config_failure_is_fatal_for_IssueCertificate (lib := no_config)
           (inbound acmpcaIssueCertificate issue_body) "" "no credentials").
  right. exists "Default", [".*\.example\.com"], parsed_request. repeat split.
Defined.

Lemma RequestCertificate_needs_DomainName_witness :
  let request := inbound acmRequestCertificate request_body in
  Unmarshal_RequestCertificate (Collaborators := no_domain)
    (list_byte_of_string request_body) = Ok (request_payload None "") /\
  venafiACMRequestCertificate (lib := no_domain) request =
    (Panic,
     [@EvUnmarshalRequestCertificate sdk (list_byte_of_string request_body)
        (Ok (request_payload None ""))]).
Proof.
  split; [reflexivity |].
  apply (RequestCertificate_needs_DomainName (lib := no_domain)
           (inbound acmRequestCertificate request_body) (request_payload None ""));
    reflexivity.
Defined.

(** C9 at a payload with a missing comma.  The managed-certificate
    handler answers status 422 with the message of encoding/json, which
    quotes the offending double quote; the body built around it is not a
    JSON document. *)
Theorem error_envelope_broken_by_quote :
  let run := ACMPCAHandler (lib := not_json) (inbound acmRequestCertificate broken_body) in
  let msg := "Error unmarshaling JSON: " +:+ syntax_error in
  result_of run = Return (clientError http.StatusUnprocessableEntity msg) /\
  rfc8259.plain msg = false /\
  rfc8259.msg_envelope
    (events.APIGatewayProxyResponse.Body
       (fst (clientError http.StatusUnprocessableEntity msg))) = None.
Proof. repeat split; vm_compute; reflexivity. Qed.

Lemma unknown_target_not_allowed_witness :
  let request := inbound "ACMPrivateCA.RevokeCertificate" issue_body in
  ~ In (header request "X-Amz-Target") registry /\
  ACMPCAHandler (lib := all_well) request =
    (Return (clientError http.StatusMethodNotAllowed
               "Can't determine requested method"), []).
Proof.
  assert (H : ~ In (header (inbound "ACMPrivateCA.RevokeCertificate" issue_body)
                      "X-Amz-Target") registry).
  { vm_compute. intros [H | [H | [H | [H | []]]]]; discriminate H. }
  split; [exact H |].
  apply (unknown_target_not_allowed (lib := all_well) _ H).
Defined.

End Scenarios.

(** * Further properties of the handlers *)

Section Responses.
Context `{sdk : SDK} `{lib : !Collaborators} `{pkg : !PackageMain}.

(** X1. Whatever response a gated handler returns, the Go error beside
    it is nil and its status is one of 200, 403, 422, 424 and 500. *)
Theorem gated_response_shape
  (op : GatedOperation) (request : events.APIGatewayProxyRequest.t)
  (resp : events.APIGatewayProxyResponse.t) (err : option error) :
  result_of (gated_handler op request) = Return (resp, err) ->
  err = None /\
  In (events.APIGatewayProxyResponse.StatusCode resp)
     [http.StatusOK; http.StatusForbidden; http.StatusUnprocessableEntity;
      http.StatusFailedDependency; http.StatusInternalServerError].
Proof.
  destruct op; cbv [gated_handler]; run_cases; cbv [result_of fst clientError];
    intros H; try discriminate H; injection H as <- <-;
    (split; [reflexivity | cbn; tauto]).
Qed.

(** X2. The private-CA handler returns a response on every request and
    for every answer of the libraries: it has no path that panics. *)
Theorem IssueCertificate_always_answers
  (request : events.APIGatewayProxyRequest.t) :
  exists resp,
    result_of (venafiACMPCAIssueCertificateRequest request) = Return (resp, None).
Proof.
  run_cases; cbv [result_of fst clientError]; eexists; reflexivity.
Qed.

(** X3. A gated handler answers status 200 only when it made one backend
    call, that call succeeded, and the body is the serialization of its
    answer. *)
Theorem ok_only_from_backend
  (op : GatedOperation) (request : events.APIGatewayProxyRequest.t)
  (resp : events.APIGatewayProxyResponse.t) (err : option error) :
  result_of (gated_handler op request) = Return (resp, err) ->
  events.APIGatewayProxyResponse.StatusCode resp = http.StatusOK ->
  exists serialized,
    answered_by_backend op (log_of (gated_handler op request)) serialized /\
    resp = fst (relayed serialized).
Proof.
  destruct op; cbv [gated_handler]; run_cases;
    cbv [result_of log_of fst snd clientError];
    intros H; try discriminate H; injection H as <- <-; intros Hs;
    try discriminate Hs;
    eexists; (split; [do 3 eexists; split; [reflexivity | eassumption]
                     | reflexivity]).
Qed.

(** X4. One run of a gated handler resolves a policy at most once,
    validates at most once, loads the client configuration at most once and
    calls the backend at most once: nothing is retried. *)
Theorem nothing_is_retried
  (op : GatedOperation) (request : events.APIGatewayProxyRequest.t) :
  (length (List.filter is_resolution (log_of (gated_handler op request))) <= 1)%nat /\
  (length (List.filter is_validation (log_of (gated_handler op request))) <= 1)%nat /\
  (length (List.filter is_config_load (log_of (gated_handler op request))) <= 1)%nat /\
  (length (backend_calls (log_of (gated_handler op request))) <= 1)%nat.
Proof.
  destruct op; cbv [gated_handler]; run_cases; cbn; lia.
Qed.

(** ** Facts about logs, for any classification of the entries *)

Lemma before_first_split (p : Event -> bool) (l pre post : list Event) (e : Event) :
  l = pre ++ e :: post -> p e = true ->
  (length (List.filter p l) <= 1)%nat ->
  pre = before_first p l.
Proof.
  intros -> He. induction pre as [|a pre IH]; simpl; intros Hlen.
  - now rewrite He.
  - destruct (p a) eqn:Ha.
    + exfalso. simpl in Hlen. rewrite List.filter_app in Hlen. simpl in Hlen.
      rewrite He in Hlen. rewrite length_app in Hlen. simpl in Hlen. lia.
    + f_equal. apply IH. exact Hlen.
Qed.

Lemma absent_split (p : Event -> bool) (l pre post : list Event) (e : Event) :
  l = pre ++ e :: post -> p e = true -> List.filter p l <> [].
Proof.
  intros -> He. rewrite List.filter_app. simpl. rewrite He.
  destruct (List.filter p pre); discriminate.
Qed.

Lemma failed_call_is_last (l pre post : list Event) (e : Event) :
  existsb is_failed_call (removelast l) = false ->
  l = pre ++ e :: post -> is_failed_call e = true -> post = [].
Proof.
  intros Hl -> He. destruct post as [|e' post]; [reflexivity | exfalso].
  rewrite removelast_app in Hl by discriminate.
  rewrite existsb_app in Hl. apply orb_false_iff in Hl as [_ Hl].
  change (removelast (e :: e' :: post)) with (e :: removelast (e' :: post)) in Hl.
  simpl in Hl. rewrite He in Hl. discriminate Hl.
Qed.

(** X5. In both gated operations, when the backend call fails the handler
    returns status 500 with the backend's error in the message, and that
    call is the last of the run: the answer is not serialized and the call
    is not repeated. *)
Theorem backend_error_is_internal
  (op : GatedOperation) (request : events.APIGatewayProxyRequest.t)
  (e : Event) (err : error) :
  In e (log_of (gated_handler op request)) ->
  backend_error e = Some err ->
  result_of (gated_handler op request) =
    Return (clientError http.StatusInternalServerError
              (Sprintf "could not get certificate response: %s" [err])) /\
  last (log_of (gated_handler op request)) = Some e /\
  backend_calls (log_of (gated_handler op request)) = [e].
Proof.
  intros H He; revert H.
  destruct op; cbv [gated_handler]; run_cases; intros H; in_log H;
    subst e; try discriminate He; injection He as <-;
    repeat split.
Qed.

(** X6. In both gated operations, when the answer of the backend does not
    serialize the handler returns status 422 with the message of its
    operation, although the one backend call of the run has succeeded. *)
Theorem marshal_error_is_unprocessable
  (op : GatedOperation) (request : events.APIGatewayProxyRequest.t)
  (e : Event) (err : error) :
  In e (log_of (gated_handler op request)) ->
  marshal_error e = Some err ->
  result_of (gated_handler op request) =
    Return (clientError http.StatusUnprocessableEntity
              (marshal_failure_message op err)) /\
  exists call, backend_calls (log_of (gated_handler op request)) = [call] /\
               backend_error call = None.
Proof.
  intros H He; revert H.
  destruct op; cbv [gated_handler]; run_cases; intros H; in_log H;
    subst e; try discriminate He; injection He as <-;
    (split; [reflexivity | eexists; split; reflexivity]).
Qed.

(** X7. In both gated operations, a payload that decodes and whose
    VenafiZone is not empty has its policy resolved exactly once, for that
    zone as it stands in the payload. *)
Theorem named_zone_resolved_verbatim
  (op : GatedOperation) (request : events.APIGatewayProxyRequest.t) (zone : string) :
  payload_zone op request = Some zone ->
  zone <> "" ->
  List.filter is_resolution (log_of (gated_handler op request)) =
    [EvGetPolicy zone (GetPolicy zone)].
Proof.
  intros H Hz; revert H.
  destruct op; cbv [payload_zone decode_IssueCertificate gated_handler];
    run_cases; intros H; try discriminate H; injection H as H;
    apply String.eqb_neq in Hz; rewrite H in *; rewrite Hz in *; cbn in *;
    congruence.
Qed.

(** X8. In the managed-certificate operation an error of the loading of
    the client configuration does not make the handler return: for a
    request that decodes and that the policy of its zone accepts, the
    handler prints the error, then panics while it builds its request on
    the configuration that came with the error; it returns no response and
    makes no backend call. *)
Theorem RequestCertificate_panics_without_config
  (request : events.APIGatewayProxyRequest.t)
  (zone : string) (policy : endpoint_Policy) (req : certificate.Request)
  (cfg : aws_Config) (err : error) :
  canonical_request RequestCertificate request = Some (zone, req) ->
  GetPolicy zone = Ok policy ->
  ValidateCertificateRequest policy req = None ->
  LoadDefaultAWSConfig = (cfg, Some err) ->
  result_of (venafiACMRequestCertificate request) = Panic /\
  (exists pre,
     log_of (venafiACMRequestCertificate request) =
       pre ++ [EvLoadConfig (cfg, Some err);
               EvPrintln ["Error loading client"; err]]) /\
  backend_calls (log_of (venafiACMRequestCertificate request)) = [].
Proof.
  intros Hc Hp Hv Hl; revert Hc Hp Hv Hl.
  cbv [canonical_request]; run_cases; intros Hc Hp Hv Hl;
    try discriminate Hc; try discriminate Hl;
    injection Hc as <- <-; injection Hl as <- <-;
    rewrite ?RequestCertificate_zone in *;
    normalise_request;
    try congruence;
    (split; [reflexivity | split; [| reflexivity]]);
    cbv [log_of snd];
    match goal with
    | |- exists pre, ?l = _ =>
        exists (removelast (removelast l)); reflexivity
    end.
Qed.

(** X9. In the managed-certificate operation a payload that does not
    unmarshal is answered with status 422 and the error of the decoder in
    the message, and the unmarshaling is the only library call of the run. *)
Theorem RequestCertificate_unmarshal_failure
  (request : events.APIGatewayProxyRequest.t) (err : error) :
  Unmarshal_RequestCertificate
    (list_byte_of_string (events.APIGatewayProxyRequest.Body request)) = Err err ->
  venafiACMRequestCertificate request =
    (Return (clientError http.StatusUnprocessableEntity
               (Sprintf "Error unmarshaling JSON: %s" [err])),
     [EvUnmarshalRequestCertificate
        (list_byte_of_string (events.APIGatewayProxyRequest.Body request))
        (Err err)]).
Proof.
  run_cases; intros H; try discriminate H; injection H as <-; reflexivity.
Qed.

(** X10. A request without the header X-Amz-Target is dispatched as if the
    header were empty: when neither pass-through identifier is the empty
    string it is answered with status 405 and no library is called. *)
Theorem missing_target_not_allowed (request : events.APIGatewayProxyRequest.t) :
  events.APIGatewayProxyRequest.Headers request !! "X-Amz-Target" = None ->
  acmpcaListCertificateAuthorities <> "" ->
  acmpcaGetCertificate <> "" ->
  ACMPCAHandler request =
    (Return (clientError http.StatusMethodNotAllowed
               "Can't determine requested method"), []).
Proof.
  intros H Hl Hg. unfold ACMPCAHandler, header. rewrite H. cbn [default].
  change ("" =? acmpcaIssueCertificate)%string with false.
  change ("" =? acmRequestCertificate)%string with false.
  cbv beta iota.
  destruct (String.eqb_spec "" acmpcaListCertificateAuthorities) as [E|_];
    [congruence |].
  destruct (String.eqb_spec "" acmpcaGetCertificate) as [E|_]; [congruence |].
  reflexivity.
Qed.

(** X12. A gated handler answers status 403 only when the validator has
    rejected the request: the last call of the run is then a validation
    that answered a reason, and the response is built from that reason. *)
Theorem forbidden_only_from_validator
  (op : GatedOperation) (request : events.APIGatewayProxyRequest.t)
  (resp : events.APIGatewayProxyResponse.t) (err : option error) :
  result_of (gated_handler op request) = Return (resp, err) ->
  events.APIGatewayProxyResponse.StatusCode resp = http.StatusForbidden ->
  exists pre policy req reason,
    log_of (gated_handler op request) =
      pre ++ [EvValidate policy req (Some reason)] /\
    resp = fst (clientError http.StatusForbidden reason).
Proof.
  destruct op; cbv [gated_handler]; run_cases;
    cbv [result_of log_of fst snd clientError];
    intros H; try discriminate H; injection H as <- <-; intros Hs;
    try discriminate Hs;
    match goal with
    | |- exists pre policy req reason, ?l = _ /\ _ =>
        exists (removelast l); cbn [removelast]; do 3 eexists;
        split; reflexivity
    end.
Qed.

(** X13. A gated handler answers status 424 only when the resolution of
    the policy has failed: the last call of the run is then that
    resolution, and no validation was made. *)
Theorem failed_dependency_only_from_resolver
  (op : GatedOperation) (request : events.APIGatewayProxyRequest.t)
  (resp : events.APIGatewayProxyResponse.t) (err : option error) :
  result_of (gated_handler op request) = Return (resp, err) ->
  events.APIGatewayProxyResponse.StatusCode resp = http.StatusFailedDependency ->
  exists pre zone reason,
    log_of (gated_handler op request) = pre ++ [EvGetPolicy zone (Err reason)] /\
    List.filter is_validation (log_of (gated_handler op request)) = [] /\
    resp = fst (clientError http.StatusFailedDependency
                  (Sprintf "Failed get policy from database: %s" [reason])).
Proof.
  destruct op; cbv [gated_handler]; run_cases;
    cbv [result_of log_of fst snd clientError];
    intros H; try discriminate H; injection H as <- <-; intros Hs;
    try discriminate Hs;
    match goal with
    | |- exists pre zone reason, ?l = _ /\ _ =>
        exists (removelast l); cbn [removelast]; do 2 eexists;
        repeat split
    end.
Qed.

(** X14. In both gated operations a decoding step, a resolution, a
    validation, a backend call or a serialization that answers an error is
    the last library call of the run. *)
Theorem nothing_after_a_failed_call
  (op : GatedOperation) (request : events.APIGatewayProxyRequest.t)
  (pre post : list Event) (e : Event) :
  log_of (gated_handler op request) = pre ++ e :: post ->
  is_failed_call e = true ->
  post = [].
Proof.
  intros H He; revert H.
  destruct op; cbv [gated_handler]; run_cases; cbv [log_of snd]; intros H;
    refine (failed_call_is_last _ _ _ _ _ H He); reflexivity.
Qed.

(** X15. In both gated operations the client configuration is loaded
    only after the payload has been decoded, the policy resolved and the
    request validated, each with success: a request that is refused costs
    no loading of credentials. *)
Theorem config_loaded_only_after_gates
  (op : GatedOperation) (request : events.APIGatewayProxyRequest.t)
  (pre post : list Event) (e : Event) :
  log_of (gated_handler op request) = pre ++ e :: post ->
  is_config_load e = true ->
  gates_passed pre /\ backend_calls pre = [].
Proof.
  intros H He; revert H.
  destruct op; cbv [gated_handler]; run_cases; cbv [log_of snd]; intros H;
    try (exfalso; apply (absent_split is_config_load _ _ _ _ H He); reflexivity);
    (apply (before_first_split is_config_load) in H;
     [subst pre | exact He | simpl; lia]);
    cbv [before_first is_config_load];
    (split; [| reflexivity]);
    do 5 eexists;
    first [ split; [apply decoded_IssueCertificate | reflexivity]
          | split; [eapply decoded_RequestCertificate; eassumption | reflexivity] ].
Qed.

(** X17. A gated handler answers a status other than 200 only because
    the last library call of the run failed, and the status is the one the
    handler gives to a failure of that call: 422 for a decoding step or a
    serialization, 424 for the resolution, 403 for the validation, 500 for
    the backend call and, in the private-CA operation, for the loading of
    the client configuration. *)
Theorem error_status_names_the_failed_call
  (op : GatedOperation) (request : events.APIGatewayProxyRequest.t)
  (resp : events.APIGatewayProxyResponse.t) (err : option error) :
  result_of (gated_handler op request) = Return (resp, err) ->
  events.APIGatewayProxyResponse.StatusCode resp <> http.StatusOK ->
  exists pre e,
    log_of (gated_handler op request) = pre ++ [e] /\
    failure_status op e = Some (events.APIGatewayProxyResponse.StatusCode resp).
Proof.
  destruct op; cbv [gated_handler]; run_cases;
    cbv [result_of log_of fst snd clientError];
    intros H; try discriminate H; injection H as <- <-; intros Hs;
    try (exfalso; apply Hs; reflexivity);
    match goal with
    | |- exists pre e, ?l = _ /\ _ =>
        exists (removelast l); cbn [removelast]; eexists; split; reflexivity
    end.
Qed.

(** X18. Every response of a gated handler with a status other than
    200 is built by [clientError] from that status and a message: all the
    failures share the one envelope. *)
Theorem failures_share_the_envelope
  (op : GatedOperation) (request : events.APIGatewayProxyRequest.t)
  (resp : events.APIGatewayProxyResponse.t) (err : option error) :
  result_of (gated_handler op request) = Return (resp, err) ->
  events.APIGatewayProxyResponse.StatusCode resp <> http.StatusOK ->
  exists msg,
    (resp, err) = clientError (events.APIGatewayProxyResponse.StatusCode resp) msg.
Proof.
  destruct op; cbv [gated_handler]; run_cases; cbv [result_of fst];
    intros H; try discriminate H; injection H as <- <-; intros Hs;
    try (exfalso; apply Hs; reflexivity);
    eexists; reflexivity.
Qed.

End Responses.

(** X16. The response to an error tells its status and its message apart
    from every other: two error responses are equal only when their
    statuses and their messages are. *)
Theorem clientError_injective (status status' : Z) (msg msg' : string) :
  clientError status msg = clientError status' msg' ->
  status = status' /\ msg = msg'.
Proof.
  intros H.
  pose proof (f_equal (fun r => events.APIGatewayProxyResponse.StatusCode (fst r)) H)
    as Hs.
  pose proof (f_equal (fun r => events.APIGatewayProxyResponse.Body (fst r)) H)
    as Hb.
  cbv beta in Hs, Hb. rewrite !clientError_body in Hb.
  split; [exact Hs |].
  repeat (apply (String.app_inj _) in Hb || injection Hb as Hb).
  assert (String.length msg = String.length msg') as Hl.
  { apply (f_equal String.length) in Hb. rewrite !length_append in Hb.
    simpl in Hb. lia. }
  apply append_same_length in Hb as [Hm _]; [exact Hm | exact Hl].
Qed.

(** * The further properties on the stand-in libraries *)

Section FurtherScenarios.
Import Scenario.
#[local] Existing Instance Scenario.sdk.
#[local] Existing Instance Scenario.pkg.

Lemma gated_response_shape_witness :
  let run := gated_handler (lib := rejected) IssueCertificate
               (inbound acmpcaIssueCertificate issue_body) in
  let resp := fst (clientError http.StatusForbidden
                     "common name test.example.com is not allowed in this policy") in
  result_of run = Return (resp, None) /\
  (@None error = None /\
   In (events.APIGatewayProxyResponse.StatusCode resp)
      [http.StatusOK; http.StatusForbidden; http.StatusUnprocessableEntity;
       http.StatusFailedDependency; http.StatusInternalServerError]).
Proof.
  split; [reflexivity |].
  apply (gated_response_shape (lib := rejected) IssueCertificate
           (inbound acmpcaIssueCertificate issue_body)).
  reflexivity.
Defined.

Lemma ok_only_from_backend_witness :
  let run := gated_handler (lib := all_well) RequestCertificate
               (inbound acmRequestCertificate request_body) in
  result_of run = Return (relayed arn_json) /\
  exists serialized,
    answered_by_backend (lib := all_well) RequestCertificate (log_of run) serialized /\
    fst (relayed arn_json) = fst (relayed serialized).
Proof.
  split; [reflexivity |].
  apply (ok_only_from_backend (lib := all_well) RequestCertificate
           (inbound acmRequestCertificate request_body) (fst (relayed arn_json)) None);
    reflexivity.
Defined.

Lemma backend_error_is_internal_witness :
  let run := gated_handler (lib := backend_down) IssueCertificate
               (inbound acmpcaIssueCertificate issue_body) in
  let e := @EvIssueCertificateSend sdk "us-east-1" (list_byte_of_string "Q1NS")
             (Err "AccessDeniedException") in
  In e (log_of run) /\
  result_of run =
    Return (clientError http.StatusInternalServerError
              (Sprintf "could not get certificate response: %s"
                       ["AccessDeniedException"])) /\
  last (log_of run) = Some e /\
  backend_calls (log_of run) = [e].
Proof.
  split; [vm_compute; tauto |].
  apply (backend_error_is_internal (lib := backend_down) IssueCertificate
           (inbound acmpcaIssueCertificate issue_body)).
  - vm_compute; tauto.
  - reflexivity.
Defined.

Lemma marshal_error_is_unprocessable_witness :
  let run := gated_handler (lib := no_marshal) RequestCertificate
               (inbound acmRequestCertificate request_body) in
  let e := @EvMarshalRequestCertificate sdk arn (Err "json: unsupported value") in
  In e (log_of run) /\
  result_of run =
    Return (clientError http.StatusUnprocessableEntity
              (marshal_failure_message RequestCertificate "json: unsupported value")) /\
  exists call, backend_calls (log_of run) = [call] /\ backend_error call = None.
Proof.
  split; [vm_compute; tauto |].
  apply (marshal_error_is_unprocessable (lib := no_marshal) RequestCertificate
           (inbound acmRequestCertificate request_body)
           (@EvMarshalRequestCertificate sdk arn (Err "json: unsupported value"))).
  - vm_compute; tauto.
  - reflexivity.
Defined.

Lemma named_zone_resolved_verbatim_witness :
  let request := inbound acmpcaIssueCertificate issue_body in
  payload_zone (lib := staging_zone) IssueCertificate request = Some "Staging" /\
  List.filter is_resolution
    (log_of (gated_handler (lib := staging_zone) IssueCertificate request)) =
    [EvGetPolicy "Staging" (GetPolicy (Collaborators := staging_zone) "Staging")].
Proof.
  split; [reflexivity |].
  apply (named_zone_resolved_verbatim (lib := staging_zone) IssueCertificate
           (inbound acmpcaIssueCertificate issue_body) "Staging").
  - reflexivity.
  - discriminate.
Defined.

Lemma RequestCertificate_panics_without_config_witness :
  let request := inbound acmRequestCertificate request_body in
  let run := venafiACMRequestCertificate (lib := no_config) request in
  canonical_request (lib := no_config) RequestCertificate request =
    Some ("Default", canonical_of_names "test.example.com" ["www.example.com"]) /\
  result_of run = Panic /\
  (exists pre,
     log_of run =
       pre ++ [@EvLoadConfig sdk ("", Some "no credentials");
               EvPrintln ["Error loading client"; "no credentials"]]) /\
  backend_calls (log_of run) = [].
Proof.
  split; [reflexivity |].
  apply (RequestCertificate_panics_without_config (lib := no_config)
           (inbound acmRequestCertificate request_body)
           "Default" [".*\.example\.com"]
           (canonical_of_names "test.example.com" ["www.example.com"])
           "" "no credentials");
    reflexivity.
Defined.

Lemma RequestCertificate_unmarshal_failure_witness :
  venafiACMRequestCertificate (lib := not_json)
    (inbound acmRequestCertificate broken_body) =
    (Return (clientError http.StatusUnprocessableEntity
               (Sprintf "Error unmarshaling JSON: %s" [syntax_error])),
     [@EvUnmarshalRequestCertificate sdk (list_byte_of_string broken_body)
        (Err syntax_error)]).
Proof.
  apply (RequestCertificate_unmarshal_failure (lib := not_json)
           (inbound acmRequestCertificate broken_body) syntax_error).
  reflexivity.
Defined.

Lemma missing_target_not_allowed_witness :
  let request :=
    {| events.APIGatewayProxyRequest.Headers := {[ "Content-Type" := "application/json" ]};
       events.APIGatewayProxyRequest.Body := issue_body |} in
  events.APIGatewayProxyRequest.Headers request !! "X-Amz-Target" = None /\
  ACMPCAHandler (lib := all_well) request =
    (Return (clientError http.StatusMethodNotAllowed
               "Can't determine requested method"), []).
Proof.
  split; [reflexivity |].
  apply (missing_target_not_allowed (lib := all_well)); [reflexivity | |];
    discriminate.
Defined.

Lemma forbidden_only_from_validator_witness :
  let run := gated_handler (lib := rejected) RequestCertificate
               (inbound acmRequestCertificate request_body) in
  let reason := "common name test.example.com is not allowed in this policy" in
  result_of run = Return (clientError http.StatusForbidden reason) /\
  exists pre policy req reason',
    log_of run = pre ++ [EvValidate policy req (Some reason')] /\
    fst (clientError http.StatusForbidden reason) =
    fst (clientError http.StatusForbidden reason').
Proof.
  split; [reflexivity |].
  apply (forbidden_only_from_validator (lib := rejected) RequestCertificate
           (inbound acmRequestCertificate request_body) _ None); reflexivity.
Defined.

Lemma failed_dependency_only_from_resolver_witness :
  let run := gated_handler (lib := ghost_zone) IssueCertificate
               (inbound acmpcaIssueCertificate issue_body) in
  let resp := fst (clientError http.StatusFailedDependency
                     "Failed get policy from database: zone not found") in
  result_of run = Return (resp, None) /\
  exists pre zone reason,
    log_of run = pre ++ [EvGetPolicy zone (Err reason)] /\
    List.filter is_validation (log_of run) = [] /\
    resp = fst (clientError http.StatusFailedDependency
                  (Sprintf "Failed get policy from database: %s" [reason])).
Proof.
  split; [reflexivity |].
  apply (failed_dependency_only_from_resolver (lib := ghost_zone) IssueCertificate
           (inbound acmpcaIssueCertificate issue_body) _ None); reflexivity.
Defined.

Lemma nothing_after_a_failed_call_witness :
  let run := gated_handler (lib := bad_base64) IssueCertificate
               (inbound acmpcaIssueCertificate issue_body) in
  let e := @EvBase64Decode sdk "Q1NS" (Err "illegal base64 data at input byte 3") in
  log_of run = firstn 1 (log_of run) ++ e :: skipn 2 (log_of run) /\
  is_failed_call e = true /\
  skipn 2 (log_of run) = [].
Proof.
  split; [reflexivity | split; [reflexivity |]].
  apply (nothing_after_a_failed_call (lib := bad_base64) IssueCertificate
           (inbound acmpcaIssueCertificate issue_body)
           (firstn 1 (log_of (gated_handler (lib := bad_base64) IssueCertificate
                                (inbound acmpcaIssueCertificate issue_body))))
           _ (@EvBase64Decode sdk "Q1NS" (Err "illegal base64 data at input byte 3")));
    reflexivity.
Defined.

Lemma config_loaded_only_after_gates_witness :
  let run := gated_handler (lib := no_config) RequestCertificate
               (inbound acmRequestCertificate request_body) in
  let e := @EvLoadConfig sdk ("", Some "no credentials") in
  log_of run = firstn 3 (log_of run) ++ e :: skipn 4 (log_of run) /\
  is_config_load e = true /\
  gates_passed (firstn 3 (log_of run)) /\
  backend_calls (firstn 3 (log_of run)) = [].
Proof.
  split; [reflexivity | split; [reflexivity |]].
  apply (config_loaded_only_after_gates (lib := no_config) RequestCertificate
           (inbound acmRequestCertificate request_body)
           _ (skipn 4 (log_of (gated_handler (lib := no_config) RequestCertificate
                                 (inbound acmRequestCertificate request_body))))
           (@EvLoadConfig sdk ("", Some "no credentials")));
    reflexivity.
Defined.

Lemma error_status_names_the_failed_call_witness :
  let run := gated_handler (lib := backend_down) RequestCertificate
               (inbound acmRequestCertificate request_body) in
  let resp := fst (clientError http.StatusInternalServerError
                     "could not get certificate response: AccessDeniedException") in
  result_of run = Return (resp, None) /\
  events.APIGatewayProxyResponse.StatusCode resp <> http.StatusOK /\
  exists pre e,
    log_of run = pre ++ [e] /\
    failure_status RequestCertificate e =
      Some (events.APIGatewayProxyResponse.StatusCode resp).
Proof.
  split; [reflexivity | split; [discriminate |]].
  apply (error_status_names_the_failed_call (lib := backend_down) RequestCertificate
           (inbound acmRequestCertificate request_body) _ None);
    [reflexivity | discriminate].
Defined.

Lemma clientError_injective_witness :
  clientError http.StatusForbidden "denied" = clientError 403 "denied" /\
  http.StatusForbidden = 403 /\ "denied" = "denied".
Proof.
  split; [reflexivity |].
  apply (clientError_injective http.StatusForbidden 403 "denied" "denied").
  reflexivity.
Defined.

Lemma failures_share_the_envelope_witness :
  let run := gated_handler (lib := ghost_zone) RequestCertificate
               (inbound acmRequestCertificate request_body) in
  let resp := fst (clientError http.StatusFailedDependency
                     "Failed get policy from database: zone not found") in
  result_of run = Return (resp, None) /\
  events.APIGatewayProxyResponse.StatusCode resp <> http.StatusOK /\
  exists msg,
    (resp, @None error) =
    clientError (events.APIGatewayProxyResponse.StatusCode resp) msg.
Proof.
  split; [reflexivity | split; [discriminate |]].
  apply (failures_share_the_envelope (lib := ghost_zone) RequestCertificate
           (inbound acmRequestCertificate request_body) _ None);
    [reflexivity | discriminate].
Defined.

End FurtherScenarios.
